(** * Conversation memory and usage accounting: a shallow embedding of
    [src/core/counters.py] ([TokenCounter]) and [src/core/memory.py]
    ([MemoryManager]), with the pruning trigger of
    [src/page_modules/chat.py].

    A Python [str] is a sequence of code points; a [string] here reads each
    of its [ascii] characters as one code point in [U+0000..U+00FF], so
    [String.length] is [len] and the character classes below are Python's
    on that range.  Text with code points above [U+00FF] is outside the
    model. *)

From Stdlib Require Import String Ascii List Bool Arith ZArith Lia QArith Qabs Sorting.Sorted.
Import ListNotations.
Open Scope string_scope.
Open Scope nat_scope.

(* ------------------------------------------------------------------ *)
(** ** Python string helpers *)

Module Py.

(** [str.lower] on [U+0000..U+00FF]: [A-Z] and the Latin-1 capitals
    [U+00C0..U+00DE] except the sign [U+00D7] move up by 32. *)
Definition lower_char (c : ascii) : ascii :=
  let n := nat_of_ascii c in
  if (Nat.leb 65 n && Nat.leb n 90) ||
     (Nat.leb 192 n && Nat.leb n 222 && negb (Nat.eqb n 215))
  then ascii_of_nat (n + 32) else c.

Fixpoint lower (s : string) : string :=
  match s with
  | EmptyString => EmptyString
  | String c r => String (lower_char c) (lower r)
  end.

(** [needle in haystack] for strings. *)
Fixpoint starts_with (p s : string) : bool :=
  match p, s with
  | EmptyString, _ => true
  | String a p', String b s' => Ascii.eqb a b && starts_with p' s'
  | String _ _, EmptyString => false
  end.

Fixpoint contains (needle hay : string) : bool :=
  starts_with needle hay ||
  match hay with
  | EmptyString => false
  | String _ r => contains needle r
  end.

(** The whitespace of [str.split()] and [str.strip()] ([str.isspace]) on
    [U+0000..U+00FF]: [\t], [\n], [\v], [\f], [\r], the separators
    [U+001C..U+001F], the space, [U+0085] and the no-break space [U+00A0]. *)
Definition is_space (c : ascii) : bool :=
  match nat_of_ascii c with
  | 9 | 10 | 11 | 12 | 13 | 28 | 29 | 30 | 31 | 32 | 133 | 160 => true
  | _ => false
  end.

(** [len(s.split())]: the number of maximal runs of non-whitespace;
    [in_word] records whether the previous character was part of a word. *)
Fixpoint split_len_aux (in_word : bool) (s : string) : nat :=
  match s with
  | EmptyString => 0
  | String c r =>
      if is_space c then split_len_aux false r
      else (if in_word then 0 else 1) + split_len_aux true r
  end.

Definition split_len (s : string) : nat := split_len_aux false s.

(** [dict.get(key, default)] on a dict given as its list of items. *)
Fixpoint dict_get {V} (d : list (string * V)) (k : string) (default : V) : V :=
  match d with
  | [] => default
  | (k', v) :: d' => if String.eqb k k' then v else dict_get d' k default
  end.

(** [key in dict]. *)
Definition dict_mem {V} (d : list (string * V)) (k : string) : bool :=
  existsb (fun kv => String.eqb k (fst kv)) d.

End Py.

(* ------------------------------------------------------------------ *)
(** ** [TokenCounter]: the pricing table of [__init__] *)

(** A pricing entry [{"input": r_in, "output": r_out}], rates per 1K tokens.
    Every entry of the table has both keys, so [.get("input", 0)] always
    finds its key. *)
Record price := { input : Q; output : Q }.

Definition pr (i o : Q) : price := {| input := i; output := o |}.

Definition pricing : list (string * list (string * price)) := Eval cbv delta [pr] in [
  ("OpenAI", [
    ("gpt-4.1", pr (2#1000) (8#1000));
    ("o3", pr (2#1000) (8#1000));
    ("gpt-4o", pr (5#1000) (15#1000));
    ("o4-mini-deep-research", pr (11#10000) (44#10000));
    ("gpt-4.1-mini", pr (4#10000) (16#10000));
    ("gpt-4.1-nano", pr (1#10000) (4#10000));
    ("o3-pro", pr (2#100) (8#100));
    ("gpt-4", pr (3#100) (6#100));
    ("gpt-4-turbo", pr (1#100) (3#100));
    ("gpt-3.5-turbo", pr (1#1000) (2#1000))]);
  ("Anthropic", [
    ("claude-sonnet-4-20250514", pr (3#1000) (15#1000));
    ("claude-opus-4-20250514", pr (15#1000) (75#1000));
    ("claude-3-opus-20240229", pr (15#1000) (75#1000));
    ("claude-3-sonnet-20240229", pr (3#1000) (15#1000));
    ("claude-3-haiku-20240307", pr (25#100000) (125#100000));
    ("claude-3-7-sonnet-20250219", pr (3#1000) (15#1000));
    ("claude-3-5-sonnet-20241022", pr (3#1000) (15#1000));
    ("claude-3-5-haiku-20241022", pr (1#1000) (5#1000))]);
  ("Gemini", [
    ("gemini-2.5-pro", pr (125#100000) (5#1000));
    ("gemini-2.5-flash", pr (3#10000) (25#10000));
    ("gemini-2.5-flash-lite", pr (1#10000) (4#10000));
    ("gemini-2.0-flash", pr (375#10000000) (15#100000));
    ("gemini-2.0-flash-lite", pr (1875#100000000) (75#1000000));
    ("gemini-pro", pr (5#10000) (15#10000));
    ("gemini-pro-vision", pr (5#10000) (15#10000))])
]%Q.

(** [self.pricing.get(provider, {})]. *)
Definition provider_pricing (provider : string) : list (string * price) :=
  Py.dict_get pricing provider [].

(** [provider_pricing.get(key, {})], with [{}] as [None]. *)
Definition get_price (pp : list (string * price)) (key : string) : option price :=
  Py.dict_get (map (fun kv => (fst kv, Some (snd kv))) pp) key None.

Definition is_model_supported (provider model : string) : bool :=
  Py.dict_mem (provider_pricing provider) model.

(* ------------------------------------------------------------------ *)
(** ** Token counting *)

Section Counting.

(** The tiktoken encoder: [encode enc text] is [Some tokens], or [None] when
    [encoding_for_model]/[get_encoding]/[encode] raises. [enc] names the
    model or encoding that was requested. *)
Variable encode : string -> string -> option (list nat).

(** [_count_openai_tokens].  The fallback [int(len(text.split()) * 1.3)]
    is [floor (13 n / 10)]. *)
Definition count_openai_tokens (model text : string) : nat :=
  let model_lower := Py.lower model in
  let enc :=
    if existsb (fun x => Py.contains x model_lower)
         ["gpt-4.1"; "o3"; "gpt-4o"; "o4-mini"] then "gpt-4"
    else if Py.contains "gpt-4" model_lower then "gpt-4"
    else if Py.contains "gpt-3.5-turbo" model_lower then "gpt-3.5-turbo"
    else "cl100k_base" in
  match encode enc text with
  | Some toks => length toks
  | None => (Py.split_len text * 13) / 10
  end.

(** [_count_anthropic_tokens]: [max(1, int(len(text) / 3.8))].  The float
    quotient is written as [floor (10 n / 38)].  [len(text)] counts code
    points, not UTF-8 bytes: [String.length text] is that count, each
    [ascii] character standing for one code point (see the header). *)
Definition count_anthropic_tokens (text : string) : nat :=
  Nat.max 1 ((String.length text * 10) / 38).

(** [_count_gemini_tokens]: [max(1, int(len(text) / 3.7))], with [len(text)]
    the number of code points as for [_count_anthropic_tokens]. *)
Definition count_gemini_tokens (text : string) : nat :=
  Nat.max 1 ((String.length text * 10) / 37).

Definition count_tokens (provider model text : string) : nat :=
  if String.eqb provider "OpenAI" then count_openai_tokens model text
  else if String.eqb provider "Anthropic" then count_anthropic_tokens text
  else if String.eqb provider "Gemini" then count_gemini_tokens text
  else Py.split_len text.

(** A message is a [Dict[str, str]], given as its items. *)
Definition message := list (string * string).

(** [count_messages_tokens]: the loop of the source, accumulating into
    [total_tokens]. *)
Fixpoint count_messages_loop (provider model : string) (total : nat)
    (messages : list message) : nat :=
  match messages with
  | [] => total
  | m :: ms =>
      let content := Py.dict_get m "content" "" in
      let total := total + count_tokens provider model content in
      let total := total + 4 in
      count_messages_loop provider model total ms
  end.

Definition count_messages_tokens (provider model : string)
    (messages : list message) : nat :=
  count_messages_loop provider model 0 messages + 3.

End Counting.

(* ------------------------------------------------------------------ *)
(** ** Cost estimation *)

(** The fuzzy-matching branch of [estimate_cost]: the pricing key its
    nested conditions select for a lower-cased model name, or [None] when no
    branch assigns [model_pricing]. *)
Definition fuzzy_key (provider model_lower : string) : option string :=
  let has x := Py.contains x model_lower in
  if String.eqb provider "OpenAI" then
    if has "gpt-4.1" then
      if has "mini" then Some "gpt-4.1-mini"
      else if has "nano" then Some "gpt-4.1-nano"
      else Some "gpt-4.1"
    else if has "o3" then
      if has "pro" then Some "o3-pro" else Some "o3"
    else if has "gpt-4o" then Some "gpt-4o"
    else if has "o4-mini" then Some "o4-mini-deep-research"
    else if has "gpt-4" then Some "gpt-4"
    else None
  else if String.eqb provider "Anthropic" then
    if has "claude-4" || has "sonnet-4" then Some "claude-sonnet-4-20250514"
    else if has "opus-4" then Some "claude-opus-4-20250514"
    else if has "claude-3" then
      if has "opus" then Some "claude-3-opus-20240229"
      else if has "sonnet" then Some "claude-3-sonnet-20240229"
      else if has "haiku" then Some "claude-3-haiku-20240307"
      else None
    else None
  else if String.eqb provider "Gemini" then
    if has "2.5" then
      if has "pro" then Some "gemini-2.5-pro"
      else if has "flash-lite" || has "lite" then Some "gemini-2.5-flash-lite"
      else if has "flash" then Some "gemini-2.5-flash"
      else None
    else if has "2.0" then
      if has "lite" then Some "gemini-2.0-flash-lite" else Some "gemini-2.0-flash"
    else if has "gemini-pro" then Some "gemini-pro"
    else None
  else None.

(** [model_pricing] as [estimate_cost] computes it: the exact entry, else
    the entry the fuzzy branch selects ([None] stands for [{}]). *)
Definition model_pricing (provider model : string) : option price :=
  let pp := provider_pricing provider in
  match get_price pp model with
  | Some p => Some p
  | None =>
      match fuzzy_key provider (Py.lower model) with
      | Some k => get_price pp k
      | None => None
      end
  end.

Section Cost.

(** Float arithmetic: every operation of the source returns the exact
    rational result rounded by [rnd] (IEEE round-to-nearest, or the identity
    for exact arithmetic). *)
Variable rnd : Q -> Q.

Definition fmul (x y : Q) : Q := rnd (x * y).
Definition fadd (x y : Q) : Q := rnd (x + y).

(** The true division [a / b] of two Python ints is correctly rounded, and
    raises [OverflowError] when the rounded quotient is not a finite float:
    the largest float is [2^1024 - 2^971], so this happens exactly when
    [|a / b|] reaches the midpoint [2^1024 - 2^970]. *)
Definition float_overflow_bound : Q := inject_Z (2 ^ 1024 - 2 ^ 970)%Z.

(** [a / b] for Python ints; [None] is the [OverflowError]. *)
Definition int_truediv (a b : Z) : option Q :=
  let q := (inject_Z a / inject_Z b)%Q in
  if Qle_bool float_overflow_bound (Qabs q) then None else Some (rnd q).

(** [estimate_cost].  Its [try] block raises only in a division
    [tokens / 1000] whose quotient overflows a float, and the [except]
    branch then returns [0.0].  Every rate is below [1], so the products and
    their sum stay finite. *)
Definition estimate_cost (provider model : string)
    (input_tokens output_tokens : nat) : Q :=
  match model_pricing provider model with
  | None => 0
  | Some p =>
      match int_truediv (Z.of_nat input_tokens) 1000 with
      | None => 0
      | Some qi =>
          let input_cost := fmul qi (input p) in
          match int_truediv (Z.of_nat output_tokens) 1000 with
          | None => 0
          | Some qo =>
              let output_cost := fmul qo (output p) in
              fadd input_cost output_cost
          end
      end
  end.

Variable encode : string -> string -> option (list nat).

(** The dict returned by [get_token_info]. *)
Record token_info := {
  ti_input_tokens : nat;
  ti_output_tokens : nat;
  ti_total_tokens : nat;
  ti_estimated_cost : Q;
  ti_provider : string;
  ti_model : string;
  ti_model_supported : bool;
  ti_cost_accuracy : string
}.

Definition get_token_info (provider model : string) (messages : list message)
    (response_text : string) : token_info :=
  let input_tokens := count_messages_tokens encode provider model messages in
  let output_tokens :=
    if String.eqb response_text "" then 0
    else count_tokens encode provider model response_text in
  let total_tokens := input_tokens + output_tokens in
  let estimated_cost := estimate_cost provider model input_tokens output_tokens in
  let model_supported := is_model_supported provider model in
  {| ti_input_tokens := input_tokens;
     ti_output_tokens := output_tokens;
     ti_total_tokens := total_tokens;
     ti_estimated_cost := estimated_cost;
     ti_provider := provider;
     ti_model := model;
     ti_model_supported := model_supported;
     ti_cost_accuracy :=
       if model_supported || negb (Qle_bool estimated_cost 0) then "accurate"
       else "estimated" |}.

End Cost.

(* ------------------------------------------------------------------ *)
(** ** [MemoryManager]: the store and its operations *)

(** A row of the [memory_vectors] table (its [embedding] column is not
    read by any operation modelled here). *)
Record mem_record := {
  rec_id : nat;
  rec_user_id : string;
  rec_conversation_id : string;
  rec_role : string;
  rec_content : string;
  rec_created_at : nat
}.

(** A row of the [summaries] table. *)
Record summary_row := {
  sum_user_id : string;
  sum_conversation_id : string;
  sum_summary : string;
  sum_messages_count : nat
}.

(** The two tables, each in insertion order. *)
Record db := {
  memory_vectors : list mem_record;
  summaries : list summary_row
}.

(** Python's exceptions: a raised exception carries its message; updates
    done before the raise stay in the store. *)
Definition M (A : Type) : Type := db -> (string + A) * db.

Definition ret {A} (a : A) : M A := fun s => (inr a, s).
Definition bind {A B} (m : M A) (k : A -> M B) : M B :=
  fun s => match m s with
           | (inl e, s') => (inl e, s')
           | (inr a, s') => k a s'
           end.
Definition raise {A} (e : string) : M A := fun s => (inl e, s).
Definition try_except {A} (m : M A) (handler : string -> M A) : M A :=
  fun s => match m s with
           | (inl e, s') => handler e s'
           | (inr a, s') => (inr a, s')
           end.
Definition get_db : M db := fun s => (inr s, s).
Definition put_db (s : db) : M unit := fun _ => (inr tt, s).

Notation "x <- m ;; k" := (bind m (fun x => k))
  (at level 61, m at next level, right associativity).
Notation "m ;;; k" := (bind m (fun _ => k))
  (at level 61, right associativity).

(** The behaviour of the external collaborators in one run. *)
Record backend := {
  (** [SUPABASE_URL] and [SUPABASE_ANON_KEY] are set *)
  configured : bool;
  (** the exact-count select of [count_messages] raises *)
  count_fails : bool;
  (** the ordered select of [get_conversation_messages] raises *)
  select_fails : bool;
  (** the insert into [summaries] raises or returns no data *)
  summary_insert_fails : bool;
  (** the range delete on [memory_vectors] raises *)
  delete_fails : bool;
  (** [llm_bridge.chat(provider, model, api_key, [prompt])] followed by
      [extract_content]: [None] when [chat] raises ([extract_content]
      itself never raises) *)
  llm_complete : string -> string -> string -> option string
}.

Definition is_conv (user_id conversation_id : string) (r : mem_record) : bool :=
  String.eqb (rec_user_id r) user_id &&
  String.eqb (rec_conversation_id r) conversation_id.

(** [.eq("user_id", u).eq("conversation_id", c)], in table order. *)
Definition conv_records (user_id conversation_id : string) (d : db)
    : list mem_record :=
  filter (is_conv user_id conversation_id) (memory_vectors d).

(** [.order("created_at", desc=False)]: a stable insertion sort.  The
    database leaves the order of equal [created_at] values unspecified; the
    sort puts them in table order, so every property below that depends on
    the order either assumes distinct timestamps or holds for any order of
    ties. *)
Fixpoint insert_by_created_at (r : mem_record) (l : list mem_record)
    : list mem_record :=
  match l with
  | [] => [r]
  | h :: t =>
      if rec_created_at r <=? rec_created_at h then r :: h :: t
      else h :: insert_by_created_at r t
  end.

Definition order_by_created_at (l : list mem_record) : list mem_record :=
  fold_right insert_by_created_at [] l.

Definition get_supabase_client (b : backend) : M unit :=
  if configured b then ret tt
  else raise "Supabase URL and key must be set in environment variables".

Definition get_conversation_messages (b : backend)
    (user_id conversation_id : string) (limit : nat) : M (list mem_record) :=
  try_except
    (get_supabase_client b;;;
     if select_fails b then raise "select failed" else
     d <- get_db;;
     ret (firstn limit
            (order_by_created_at (conv_records user_id conversation_id d))))
    (fun _ => ret []).

Definition count_messages (b : backend) (user_id conversation_id : string)
    : M nat :=
  try_except
    (get_supabase_client b;;;
     if count_fails b then raise "count failed" else
     d <- get_db;;
     ret (length (conv_records user_id conversation_id d)))
    (fun _ => ret 0).

Definition summarize_conversation (b : backend)
    (user_id conversation_id summary : string) (message_count : nat) : M bool :=
  try_except
    (get_supabase_client b;;;
     if summary_insert_fails b then raise "insert failed" else
     d <- get_db;;
     put_db {| memory_vectors := memory_vectors d;
               summaries := summaries d ++
                 [{| sum_user_id := user_id;
                     sum_conversation_id := conversation_id;
                     sum_summary := summary;
                     sum_messages_count := message_count |}] |};;;
     ret true)
    (fun _ => ret false).

(** [.delete().eq("user_id", u).eq("conversation_id", c).lte("created_at", ts)]. *)
Definition delete_up_to (b : backend) (user_id conversation_id : string)
    (ts : nat) : M unit :=
  if delete_fails b then raise "delete failed" else
  d <- get_db;;
  put_db {| memory_vectors :=
              filter (fun r => negb (is_conv user_id conversation_id r &&
                                     (rec_created_at r <=? ts)))
                     (memory_vectors d);
            summaries := summaries d |}.

(** ["\n".join(...)]. *)
Fixpoint join_lines (l : list string) : string :=
  match l with
  | [] => ""
  | [x] => x
  | x :: r => x ++ String (ascii_of_nat 10) EmptyString ++ join_lines r
  end.

Definition nl : string := String (ascii_of_nat 10) EmptyString.

(** The default of [last]; [messages_to_summarize[-1]] is only read when
    the list is not empty. *)
Definition no_record : mem_record :=
  {| rec_id := 0; rec_user_id := ""; rec_conversation_id := "";
     rec_role := ""; rec_content := ""; rec_created_at := 0 |}.

(** [messages[:-10]]. *)
Definition drop_last_10 {A} (l : list A) : list A := firstn (length l - 10) l.

Definition summarize_and_prune (b : backend) (user_id conversation_id : string)
    (provider model : string) : M bool :=
  try_except
    (get_supabase_client b;;;
     (* [if not supabase: return False]: a client object is never falsy *)
     messages <- get_conversation_messages b user_id conversation_id 100;;
     if length messages <? 20 then ret false else
     let messages_to_summarize := drop_last_10 messages in
     let conversation_text :=
       join_lines (map (fun msg => rec_role msg ++ ": " ++ rec_content msg)
                       messages_to_summarize) in
     let summary_prompt :=
       "Please provide a concise summary of the following conversation:"
         ++ nl ++ nl ++ conversation_text in
     match llm_complete b provider model summary_prompt with
     | None => raise "chat failed"
     | Some summary =>
         summarize_conversation b user_id conversation_id summary
           (length messages_to_summarize);;;
         (if 0 <? length messages_to_summarize then
            let oldest_timestamp :=
              rec_created_at (last messages_to_summarize no_record) in
            delete_up_to b user_id conversation_id oldest_timestamp
          else ret tt);;;
         ret true
     end)
    (fun _ => ret false).

(** The auto-summary check at the end of a chat turn in [show_chat_page]
    (memory enabled). *)
Definition pruning_check (b : backend) (user_id conversation_id : string)
    (provider model : string) : M unit :=
  message_count <- count_messages b user_id conversation_id;;
  if 20 <=? message_count then
    summarize_and_prune b user_id conversation_id provider model;;; ret tt
  else ret tt.

(* ------------------------------------------------------------------ *)
(** ** The rest of [TokenCounter], [MemoryManager] and their callers *)

(** [add_message].  The database assigns the new row its [id] and its
    [created_at] ([now()]), given here as [new_id] and [now];
    [insert_fails] says that encoding the embedding or the insert raises, or
    that the insert returns no data. *)
Definition add_message (b : backend) (new_id now : nat) (insert_fails : bool)
    (user_id role content conversation_id : string) : M bool :=
  try_except
    (get_supabase_client b;;;
     if insert_fails then raise "insert failed" else
     d <- get_db;;
     put_db {| memory_vectors := memory_vectors d ++
                 [{| rec_id := new_id; rec_user_id := user_id;
                     rec_conversation_id := conversation_id;
                     rec_role := role; rec_content := content;
                     rec_created_at := now |}];
               summaries := summaries d |};;;
     ret true)
    (fun _ => ret false).

(** [delete_conversation]; [delete_raises] says that the delete raises. *)
Definition delete_conversation (b : backend) (delete_raises : bool)
    (user_id conversation_id : string) : M bool :=
  try_except
    (get_supabase_client b;;;
     if delete_raises then raise "delete failed" else
     d <- get_db;;
     put_db {| memory_vectors :=
                 filter (fun r => negb (is_conv user_id conversation_id r))
                        (memory_vectors d);
               summaries := summaries d |};;;
     ret true)
    (fun _ => ret false).

(** [get_user_conversations]: the truthy [conversation_id]s of the user's
    rows, through a [set].  The order of a Python set is unspecified; here
    each id is kept at its first occurrence. [select_raises] says that the
    select raises. *)
Definition get_user_conversations (b : backend) (select_raises : bool)
    (user_id : string) : M (list string) :=
  try_except
    (get_supabase_client b;;;
     if select_raises then raise "select failed" else
     d <- get_db;;
     let rows := filter (fun r => String.eqb (rec_user_id r) user_id)
                        (memory_vectors d) in
     ret (nodup string_dec
            (filter (fun cid => negb (String.eqb cid ""))
                    (map rec_conversation_id rows))))
    (fun _ => ret []).

Module Py2.

(** [str.lstrip()], [str.rstrip()] and [str.strip()] with no argument, on
    the whitespace of [Py.is_space]. *)
Fixpoint lstrip (s : string) : string :=
  match s with
  | EmptyString => EmptyString
  | String c r => if Py.is_space c then lstrip r else s
  end.

Fixpoint rstrip (s : string) : string :=
  match s with
  | EmptyString => EmptyString
  | String c r =>
      let r' := rstrip r in
      if Py.is_space c && String.eqb r' "" then EmptyString else String c r'
  end.

Definition strip (s : string) : string := rstrip (lstrip s).

End Py2.

(** [validate_api_key] of [core/utils.py], which [show_chat_page] requires
    before it sends a turn. *)
Definition validate_api_key (provider api_key : string) : bool :=
  if String.eqb api_key "" || (String.length (Py2.strip api_key) <? 10) then false
  else if String.eqb provider "OpenAI" then Py.starts_with "sk-" api_key
  else if String.eqb provider "Anthropic" then Py.starts_with "sk-ant-" api_key
  else if String.eqb provider "Gemini" then 20 <? String.length api_key
  else true.

(** An entry of [st.session_state.history]: the chat page only ever builds
    entries with these three keys. *)
Record history_entry := {
  h_role : string;
  h_content : string;
  h_timestamp : string
}.

Definition base_system_msg : string :=
  "You are a helpful AI assistant. Be concise and helpful.".

(** The system message of a chat turn in [show_chat_page]: the base text,
    extended with the recalled memories when memory is on and recall found
    some. *)
Definition chat_system_msg (use_memory : bool) (relevant_memories : list mem_record)
    : string :=
  if use_memory && negb (Nat.eqb (length relevant_memories) 0) then
    base_system_msg ++ nl ++ nl ++
    "Relevant context from previous conversation:" ++ nl ++
    join_lines (map (fun mem => "Previous " ++ rec_role mem ++ ": " ++ rec_content mem)
                    relevant_memories)
  else base_system_msg.

(** The outgoing message list of a chat turn in [show_chat_page]: the
    system message, then the user and assistant entries among the last 10
    of the history ([history[-10:]]). *)
Definition build_messages (use_memory : bool) (relevant_memories : list mem_record)
    (history : list history_entry) : list message :=
  let system_msg := chat_system_msg use_memory relevant_memories in
  let recent_history := skipn (length history - 10) history in
  [("role", "system"); ("content", system_msg)] ::
  map (fun msg => [("role", h_role msg); ("content", h_content msg)])
      (filter (fun msg => String.eqb (h_role msg) "user" ||
                          String.eqb (h_role msg) "assistant")
              recent_history).

(** [user_message] of a chat turn, appended to the history before the
    outgoing messages are built. *)
Definition user_entry (user_input timestamp : string) : history_entry :=
  {| h_role := "user"; h_content := user_input; h_timestamp := timestamp |}.

(* ------------------------------------------------------------------ *)
(** ** [LLMBridge] of [core/providers.py] *)

(** An entry of [self.providers]. *)
Record provider_entry := {
  models : list string;
  default_model : string
}.

Definition providers : list (string * provider_entry) := [
  ("OpenAI", {| models := ["gpt-4.1"; "o3"; "gpt-4o"; "o4-mini-deep-research";
                           "gpt-4.1-mini"; "gpt-4.1-nano"; "o3-pro";
                           "gpt-4"; "gpt-4-turbo"; "gpt-3.5-turbo"];
                default_model := "gpt-4.1" |});
  ("Anthropic", {| models := ["claude-sonnet-4-20250514"; "claude-opus-4-20250514";
                              "claude-3-7-sonnet-20250219"; "claude-3-5-sonnet-20241022";
                              "claude-3-5-haiku-20241022"; "claude-3-opus-20240229";
                              "claude-3-sonnet-20240229"; "claude-3-haiku-20240307"];
                   default_model := "claude-sonnet-4-20250514" |});
  ("Gemini", {| models := ["gemini-2.5-pro"; "gemini-2.5-flash"; "gemini-2.5-flash-lite";
                           "gemini-2.0-flash"; "gemini-2.0-flash-lite";
                           "gemini-pro"; "gemini-pro-vision"];
                default_model := "gemini-2.5-pro" |})].

(** [d[key]] on a dict given as its list of items; [None] is the
    [KeyError]. *)
Definition getitem {V} (d : list (string * V)) (k : string) : option V :=
  Py.dict_get (map (fun kv => (fst kv, Some (snd kv))) d) k None.

(** [self.providers.get(provider, {}).get("models", [])]. *)
Definition get_available_models (provider : string) : list string :=
  match getitem providers provider with
  | Some e => models e
  | None => []
  end.

(** The message conversion of [_chat_anthropic]: the loop keeps the content
    of the last system message as [system_message] and appends every other
    message to [claude_messages]; [None] is a [KeyError] on [msg["role"]] or
    [msg["content"]]. *)
Fixpoint anthropic_convert (system_message : string) (claude_messages : list message)
    (messages : list message) : option (string * list message) :=
  match messages with
  | [] => Some (system_message, claude_messages)
  | msg :: rest =>
      match getitem msg "role" with
      | None => None
      | Some role =>
          match getitem msg "content" with
          | None => None
          | Some content =>
              if String.eqb role "system" then
                anthropic_convert content claude_messages rest
              else
                anthropic_convert system_message
                  (app claude_messages [[("role", role); ("content", content)]]) rest
          end
      end
  end.

Definition anthropic_request (messages : list message)
    : option (string * list message) :=
  anthropic_convert "" [] messages.

(** The message conversion of [_chat_gemini]: the contents of the user and
    assistant messages, in order. *)
Fixpoint gemini_conversation (messages : list message) : option (list string) :=
  match messages with
  | [] => Some []
  | msg :: rest =>
      match getitem msg "role" with
      | None => None
      | Some role =>
          if String.eqb role "user" || String.eqb role "assistant" then
            match getitem msg "content" with
            | None => None
            | Some content => option_map (cons content) (gemini_conversation rest)
            end
          else gemini_conversation rest
      end
  end.

(** [prompt = conversation[-1] if conversation else ""]: the only text
    [_chat_gemini] sends. *)
Definition gemini_prompt (messages : list message) : option string :=
  option_map (fun conversation => last conversation "") (gemini_conversation messages).

(** The row [add_message] inserts. *)
Definition new_record (i now : nat) (u role content c : string) : mem_record :=
  {| rec_id := i; rec_user_id := u; rec_conversation_id := c;
     rec_role := role; rec_content := content; rec_created_at := now |}.

(** [created_at] order, ties allowed. *)
Definition created_le (a b : mem_record) : Prop := rec_created_at a <= rec_created_at b.


(* ------------------------------------------------------------------ *)
(** ** Concrete stores and backends *)

(** [n] turns of conversation [c] of user [u], created at times [1..n]. *)
Definition sample_records (u c : string) (n : nat) : list mem_record :=
  map (fun i => {| rec_id := i; rec_user_id := u; rec_conversation_id := c;
                   rec_role := if Nat.even i then "assistant" else "user";
                   rec_content := "turn"; rec_created_at := i |})
      (seq 1 n).

(** A store holding [n] turns of ("u1", "c1") and two turns of another
    conversation, created between them. *)
Definition sample_db (n : nat) : db :=
  {| memory_vectors :=
       sample_records "u1" "c1" n ++
       [{| rec_id := 1000; rec_user_id := "u1"; rec_conversation_id := "c2";
           rec_role := "user"; rec_content := "other"; rec_created_at := 5 |};
        {| rec_id := 1001; rec_user_id := "u2"; rec_conversation_id := "c1";
           rec_role := "user"; rec_content := "other"; rec_created_at := 6 |}];
     summaries := [] |}.

(** The newest record of [sample_db 25]'s conversation. *)
Definition newest_of_25 : mem_record :=
  {| rec_id := 25; rec_user_id := "u1"; rec_conversation_id := "c1";
     rec_role := "user"; rec_content := "turn"; rec_created_at := 25 |}.

(** Every collaborator answers. *)
Definition backend_ok : backend :=
  {| configured := true; count_fails := false; select_fails := false;
     summary_insert_fails := false; delete_fails := false;
     llm_complete := fun _ _ _ => Some "summary" |}.

(** The summary insert fails; everything else answers. *)
Definition backend_insert_fails : backend :=
  {| configured := true; count_fails := false; select_fails := false;
     summary_insert_fails := true; delete_fails := false;
     llm_complete := fun _ _ _ => Some "summary" |}.

(** The range delete raises; everything else answers. *)
Definition backend_delete_fails : backend :=
  {| configured := true; count_fails := false; select_fails := false;
     summary_insert_fails := false; delete_fails := true;
     llm_complete := fun _ _ _ => Some "summary" |}.

(** Exact rational arithmetic, and a tokenizer stub for the examples. *)
Definition exact (q : Q) : Q := q.
Definition no_tiktoken (_ _ : string) : option (list nat) := None.

(** Both rates of an entry are non-negative. *)
Definition price_nonneg (p : price) : bool :=
  Qle_bool 0 (input p) && Qle_bool 0 (output p).

(** The timestamps of a record sequence strictly increase. *)
Fixpoint strictly_increasing (l : list nat) : bool :=
  match l with
  | x :: ((y :: _) as t) => (x <? y) && strictly_increasing t
  | _ => true
  end.

(* ================================================================== *)
(** * Properties of the token and cost estimator *)

Lemma count_messages_loop_sum (encode : string -> string -> option (list nat))
    (provider model : string) (total : nat) (messages : list message) :
  count_messages_loop encode provider model total messages =
  total + list_sum (map (fun msg => count_tokens encode provider model
                                      (Py.dict_get msg "content" ""))
                        messages)
        + 4 * length messages.
Proof.
  revert total; induction messages as [|msg ms IH]; intros total; simpl.
  - lia.
  - rewrite IH. lia.
Qed.

Lemma get_price_not_mem (pp : list (string * price)) (k : string) :
  Py.dict_mem pp k = false -> get_price pp k = None.
Proof.
  unfold get_price, Py.dict_mem.
  induction pp as [|[k' v] pp IH]; simpl; [reflexivity|].
  destruct (String.eqb k k'); simpl; [discriminate|exact IH].
Qed.

Lemma get_price_in (pp : list (string * price)) (k : string) (p : price) :
  get_price pp k = Some p -> In p (map snd pp).
Proof.
  unfold get_price.
  induction pp as [|[k' v] pp IH]; simpl; [discriminate|].
  destruct (String.eqb k k'); [injection 1 as <-; left; reflexivity|].
  intros H; right; exact (IH H).
Qed.

Lemma dict_get_cases {V} (d : list (string * V)) (k : string) (default : V) :
  Py.dict_get d k default = default \/ In (Py.dict_get d k default) (map snd d).
Proof.
  induction d as [|[k' v] d IH]; simpl; [left; reflexivity|].
  destruct (String.eqb k k'); [right; left; reflexivity|].
  destruct IH as [H|H]; [left|right; right]; exact H.
Qed.

Open Scope Q_scope.

Lemma pricing_rates_nonneg :
  forallb (fun pp => forallb price_nonneg (map snd pp)) (map snd pricing) = true.
Proof. vm_compute. reflexivity. Qed.

(** Every rate [estimate_cost] can use is non-negative. *)
Lemma model_pricing_nonneg (provider model : string) (p : price) :
  model_pricing provider model = Some p -> 0 <= input p /\ 0 <= output p.
Proof.
  intros H.
  assert (Hin : In p (map snd (provider_pricing provider))).
  { unfold model_pricing in H.
    destruct (get_price (provider_pricing provider) model) eqn:E.
    - injection H as <-. exact (get_price_in _ _ _ E).
    - destruct (fuzzy_key provider (Py.lower model)); [|discriminate].
      exact (get_price_in _ _ _ H). }
  assert (Hpp : forallb price_nonneg (map snd (provider_pricing provider)) = true).
  { unfold provider_pricing.
    destruct (dict_get_cases pricing provider []) as [E|E].
    - rewrite E. reflexivity.
    - pose proof pricing_rates_nonneg as A. rewrite forallb_forall in A.
      exact (A _ E). }
  rewrite forallb_forall in Hpp. specialize (Hpp p Hin).
  unfold price_nonneg in Hpp. apply andb_true_iff in Hpp as [H1 H2].
  apply Qle_bool_iff in H1, H2. split; assumption.
Qed.

Section Rounding.

Variable rnd : Q -> Q.
Hypothesis rnd_mono : forall x y, x <= y -> rnd x <= rnd y.

(** Below the overflow bound, [tokens / 1000] is the rounded quotient. *)
Lemma int_truediv_some (a : Z) :
  (0 <= a)%Z -> inject_Z a / inject_Z 1000 < float_overflow_bound ->
  int_truediv rnd a 1000 = Some (rnd (inject_Z a / inject_Z 1000)).
Proof.
  intros Ha Hb. unfold int_truediv.
  rewrite Qabs_pos.
  - destruct (Qle_bool float_overflow_bound (inject_Z a / inject_Z 1000)) eqn:E;
      [|reflexivity].
    apply Qle_bool_iff in E. exfalso. exact (Qlt_not_le _ _ Hb E).
  - apply Qle_shift_div_l; [reflexivity|].
    rewrite Qmult_0_l. change 0 with (inject_Z 0). rewrite <- Zle_Qle. exact Ha.
Qed.

Lemma int_div_1000_mono (a b : Z) :
  (a <= b)%Z -> inject_Z a / inject_Z 1000 <= inject_Z b / inject_Z 1000.
Proof.
  intros H. apply Qmult_le_compat_r; [rewrite <- Zle_Qle; exact H|].
  vm_compute. discriminate.
Qed.

Lemma fmul_mono (x y r : Q) : 0 <= r -> x <= y -> fmul rnd x r <= fmul rnd y r.
Proof.
  intros Hr H. unfold fmul. apply rnd_mono. apply Qmult_le_compat_r; assumption.
Qed.

Lemma nat_to_Q_mono (a b : nat) :
  (a <= b)%nat -> inject_Z (Z.of_nat a) <= inject_Z (Z.of_nat b).
Proof. intros H. rewrite <- Zle_Qle. lia. Qed.

Hypothesis rnd_zero : rnd 0 == 0.

Lemma rnd_nonneg (x : Q) : 0 <= x -> 0 <= rnd x.
Proof. intros H. rewrite <- rnd_zero. apply rnd_mono. exact H. Qed.

Lemma int_truediv_nonneg (a : Z) (q : Q) :
  (0 <= a)%Z -> int_truediv rnd a 1000 = Some q -> 0 <= q.
Proof.
  intros Ha. unfold int_truediv.
  destruct (Qle_bool _ _); [discriminate|]. intros H. injection H as <-.
  apply rnd_nonneg. apply Qle_shift_div_l; [reflexivity|].
  rewrite Qmult_0_l. change 0 with (inject_Z 0). rewrite <- Zle_Qle. exact Ha.
Qed.

Lemma estimate_cost_nonneg (provider model : string) (i o : nat) :
  0 <= estimate_cost rnd provider model i o.
Proof.
  unfold estimate_cost.
  destruct (model_pricing provider model) as [p|] eqn:E; [|apply Qle_refl].
  destruct (model_pricing_nonneg _ _ _ E) as [Hi Ho].
  destruct (int_truediv rnd (Z.of_nat i) 1000) as [qi|] eqn:Ei; [|apply Qle_refl].
  destruct (int_truediv rnd (Z.of_nat o) 1000) as [qo|] eqn:Eo; [|apply Qle_refl].
  apply int_truediv_nonneg in Ei, Eo; try lia.
  unfold fadd, fmul. apply rnd_nonneg.
  apply (Qle_trans _ (0 + 0)); [apply Qle_refl|].
  apply Qplus_le_compat; apply rnd_nonneg; apply Qmult_le_0_compat; assumption.
Qed.

End Rounding.

Close Scope Q_scope.

(* ------------------------------------------------------------------ *)
(** ** Claims on token counting *)

(** C2 (as stated: every count is [>= 0] and the empty text counts [0] for
    every provider and model) fails: Anthropic's heuristic is clamped to at
    least one token, so the empty text counts [1]. *)
Lemma count_tokens_empty_not_zero :
  ~ (forall (encode : string -> string -> option (list nat)) (provider model : string),
        count_tokens encode provider model "" = 0).
Proof.
  intros H. specialize (H no_tiktoken "Anthropic" "claude-sonnet-4-20250514").
  vm_compute in H. discriminate H.
Qed.

(** C2 (amended): [count_tokens] returns a natural number, so it is never
    negative; on the empty text it returns [0] for OpenAI (when the tokenizer
    yields no tokens for it, or raises and the word heuristic is used) and
    for any provider other than the three known ones, and [1] for Anthropic
    and Gemini. *)
Theorem count_tokens_empty
    (encode : string -> string -> option (list nat))
    (Henc : forall enc, encode enc "" = None \/ encode enc "" = Some [])
    (provider model : string) :
  0 <= count_tokens encode provider model "" /\
  count_tokens encode provider model "" =
    (if String.eqb provider "Anthropic" || String.eqb provider "Gemini"
     then 1 else 0).
Proof.
  split; [lia|].
  unfold count_tokens.
  destruct (String.eqb provider "OpenAI") eqn:EO.
  - apply String.eqb_eq in EO; subst provider. simpl.
    unfold count_openai_tokens.
    match goal with |- context [encode ?e ""] => destruct (Henc e) as [E|E] end;
      rewrite E; reflexivity.
  - destruct (String.eqb provider "Anthropic") eqn:EA; [reflexivity|].
    destruct (String.eqb provider "Gemini") eqn:EG; reflexivity.
Qed.

(** C3: [count_messages_tokens] is the sum of [count_tokens] over the
    messages' contents (a missing ["content"] counting as [""]), plus 4 per
    message, plus 3; it is a function of its arguments alone. *)
Theorem count_messages_tokens_sum
    (encode : string -> string -> option (list nat))
    (provider model : string) (messages : list message) :
  count_messages_tokens encode provider model messages =
  list_sum (map (fun msg => count_tokens encode provider model
                              (Py.dict_get msg "content" ""))
                messages)
  + 4 * length messages + 3.
Proof.
  unfold count_messages_tokens. rewrite count_messages_loop_sum. lia.
Qed.

(* ------------------------------------------------------------------ *)
(** ** Claims on cost estimation *)

Open Scope Q_scope.

(** C7: for a pair with no exact pricing entry on which no fuzzy rule
    fires, [estimate_cost] returns exactly [0] whatever the token counts,
    [is_model_supported] is false, and [get_token_info] reports the cost as
    ["estimated"]; the model is a total function, so no exception reaches
    the caller. *)
Theorem estimate_cost_unknown_zero
    (rnd : Q -> Q) (encode : string -> string -> option (list nat))
    (provider model : string)
    (Hexact : is_model_supported provider model = false)
    (Hfuzzy : fuzzy_key provider (Py.lower model) = None)
    (input_tokens output_tokens : nat)
    (messages : list message) (response_text : string) :
  estimate_cost rnd provider model input_tokens output_tokens = 0 /\
  is_model_supported provider model = false /\
  ti_cost_accuracy (get_token_info rnd encode provider model messages response_text)
    = "estimated".
Proof.
  assert (Hnone : model_pricing provider model = None).
  { unfold model_pricing. rewrite (get_price_not_mem _ _ Hexact), Hfuzzy.
    reflexivity. }
  assert (Hcost : forall i o, estimate_cost rnd provider model i o = 0).
  { intros i o. unfold estimate_cost. rewrite Hnone. reflexivity. }
  split; [apply Hcost|]. split; [exact Hexact|].
  unfold get_token_info. cbv zeta. rewrite Hexact, Hcost. reflexivity.
Qed.

Section Monotone.

Variable rnd : Q -> Q.
Hypothesis rnd_mono : forall x y, x <= y -> rnd x <= rnd y.

(** C8 (amended): for a fixed provider and model, [estimate_cost] is
    monotonic non-decreasing in the input token count and in the output
    token count, as long as the larger count divided by 1000 stays below the
    float overflow bound ([2^1024 - 2^970], about [1.8e308]); this holds for
    any rounding of the float operations that preserves order (IEEE
    round-to-nearest does) and for exact arithmetic. *)
Theorem estimate_cost_monotone (provider model : string) :
  (forall i1 i2 o : nat, (i1 <= i2)%nat ->
     inject_Z (Z.of_nat i2) / inject_Z 1000 < float_overflow_bound ->
     estimate_cost rnd provider model i1 o <= estimate_cost rnd provider model i2 o) /\
  (forall i o1 o2 : nat, (o1 <= o2)%nat ->
     inject_Z (Z.of_nat o2) / inject_Z 1000 < float_overflow_bound ->
     estimate_cost rnd provider model i o1 <= estimate_cost rnd provider model i o2).
Proof.
  unfold estimate_cost.
  destruct (model_pricing provider model) as [p|] eqn:E;
    [|split; intros; apply Qle_refl].
  destruct (model_pricing_nonneg _ _ _ E) as [Hi Ho].
  split.
  - intros a b c Hab Hb.
    assert (Ha : inject_Z (Z.of_nat a) / inject_Z 1000 < float_overflow_bound)
      by (apply (Qle_lt_trans _ (inject_Z (Z.of_nat b) / inject_Z 1000));
          [apply int_div_1000_mono; lia|exact Hb]).
    rewrite (int_truediv_some rnd (Z.of_nat a)) by (lia || exact Ha).
    rewrite (int_truediv_some rnd (Z.of_nat b)) by (lia || exact Hb).
    destruct (int_truediv rnd (Z.of_nat c) 1000) as [qo|]; [|apply Qle_refl].
    unfold fadd. apply rnd_mono. apply Qplus_le_compat; [|apply Qle_refl].
    apply fmul_mono; [exact rnd_mono|exact Hi|].
    apply rnd_mono. apply int_div_1000_mono. lia.
  - intros c a b Hab Hb.
    assert (Ha : inject_Z (Z.of_nat a) / inject_Z 1000 < float_overflow_bound)
      by (apply (Qle_lt_trans _ (inject_Z (Z.of_nat b) / inject_Z 1000));
          [apply int_div_1000_mono; lia|exact Hb]).
    destruct (int_truediv rnd (Z.of_nat c) 1000) as [qi|]; [|apply Qle_refl].
    rewrite (int_truediv_some rnd (Z.of_nat a)) by (lia || exact Ha).
    rewrite (int_truediv_some rnd (Z.of_nat b)) by (lia || exact Hb).
    unfold fadd. apply rnd_mono. apply Qplus_le_compat; [apply Qle_refl|].
    apply fmul_mono; [exact rnd_mono|exact Ho|].
    apply rnd_mono. apply int_div_1000_mono. lia.
Qed.

Hypothesis rnd_zero : rnd 0 == 0.
Variable encode : string -> string -> option (list nat).

(** C10: the accuracy flag of [get_token_info] is ["accurate"] exactly when
    the model is supported (exact match) or the estimated cost is strictly
    positive, and ["estimated"] exactly when the model is unsupported and the
    cost is [0]; so an unsupported model priced through a fuzzy rule with a
    positive cost is flagged ["accurate"]. *)
Theorem get_token_info_accuracy (provider model : string)
    (messages : list message) (response_text : string) :
  let info := get_token_info rnd encode provider model messages response_text in
  (ti_cost_accuracy info = "accurate" <->
     is_model_supported provider model = true \/ 0 < ti_estimated_cost info) /\
  (ti_cost_accuracy info = "estimated" <->
     is_model_supported provider model = false /\ ti_estimated_cost info == 0) /\
  (is_model_supported provider model = false ->
   fuzzy_key provider (Py.lower model) <> None ->
   0 < ti_estimated_cost info -> ti_cost_accuracy info = "accurate").
Proof.
  cbv zeta. unfold get_token_info. cbv zeta. simpl.
  match goal with |- context [estimate_cost rnd provider model ?i ?o] =>
    pose proof (estimate_cost_nonneg rnd rnd_mono rnd_zero provider model i o) as Hnn;
    set (cost := estimate_cost rnd provider model i o) in * end.
  destruct (Qle_bool cost 0) eqn:Hle.
  - apply Qle_bool_iff in Hle.
    assert (Hz : cost == 0) by (apply Qle_antisym; assumption).
    assert (Hnp : ~ 0 < cost) by (intros H; exact (Qlt_not_le _ _ H Hle)).
    destruct (is_model_supported provider model); simpl;
      intuition (try discriminate; try contradiction).
  - assert (Hp : 0 < cost).
    { apply Qnot_le_lt. intros H. apply Qle_bool_iff in H. congruence. }
    assert (Hnz : ~ cost == 0).
    { intros H. rewrite H in Hp. exact (Qlt_irrefl _ Hp). }
    destruct (is_model_supported provider model); simpl;
      intuition (try discriminate; try contradiction).
Qed.

End Monotone.

Close Scope Q_scope.

(* ================================================================== *)
(** * Properties of the store operations *)

Definition created_before (a b : mem_record) : Prop :=
  rec_created_at a < rec_created_at b.

Lemma strictly_increasing_sorted (l : list mem_record) :
  strictly_increasing (map rec_created_at l) = true ->
  StronglySorted created_before l.
Proof.
  intros H. apply Sorted_StronglySorted.
  { intros a b c; unfold created_before; lia. }
  induction l as [|x [|y t] IH]; [constructor|repeat constructor|].
  simpl in H. apply andb_true_iff in H as [Hxy Ht].
  constructor; [apply IH; exact Ht|].
  constructor. unfold created_before. apply Nat.ltb_lt. exact Hxy.
Qed.

Lemma insert_by_created_at_length (r : mem_record) (l : list mem_record) :
  length (insert_by_created_at r l) = S (length l).
Proof.
  induction l as [|h t IH]; simpl; [reflexivity|].
  destruct (rec_created_at r <=? rec_created_at h); simpl; [reflexivity|].
  rewrite IH. reflexivity.
Qed.

Lemma order_by_created_at_length (l : list mem_record) :
  length (order_by_created_at l) = length l.
Proof.
  induction l as [|x l IH]; simpl; [reflexivity|].
  rewrite insert_by_created_at_length, IH. reflexivity.
Qed.

(** Ordering a sequence already in strict [created_at] order leaves it as it
    is. *)
Lemma order_by_created_at_sorted (l : list mem_record) :
  StronglySorted created_before l -> order_by_created_at l = l.
Proof.
  induction 1 as [|x l Hl IH Hall]; simpl; [reflexivity|].
  rewrite IH. destruct l as [|h t]; simpl; [reflexivity|].
  inversion Hall as [|? ? Hxh _]; subst. unfold created_before in Hxh.
  replace (rec_created_at x <=? rec_created_at h) with true
    by (symmetry; apply Nat.leb_le; lia).
  reflexivity.
Qed.

Lemma conv_records_after_delete (u c : string) (ts : nat) (l : list mem_record) :
  filter (is_conv u c)
    (filter (fun r => negb (is_conv u c r && (rec_created_at r <=? ts))) l) =
  filter (fun r => negb (rec_created_at r <=? ts)) (filter (is_conv u c) l).
Proof.
  induction l as [|r l IH]; simpl; [reflexivity|].
  destruct (is_conv u c r) eqn:E; simpl;
    destruct (rec_created_at r <=? ts); simpl; rewrite ?E, ?IH; reflexivity.
Qed.

Lemma others_after_delete (u c : string) (ts : nat) (l : list mem_record) :
  filter (fun r => negb (is_conv u c r))
    (filter (fun r => negb (is_conv u c r && (rec_created_at r <=? ts))) l) =
  filter (fun r => negb (is_conv u c r)) l.
Proof.
  induction l as [|r l IH]; simpl; [reflexivity|].
  destruct (is_conv u c r) eqn:E; simpl;
    destruct (rec_created_at r <=? ts); simpl; rewrite ?E, ?IH; reflexivity.
Qed.

Lemma filter_cons_eq {A} (f : A -> bool) (a : A) (l : list A) :
  filter f (a :: l) = if f a then a :: filter f l else filter f l.
Proof. reflexivity. Qed.

Lemma filter_all_true {A} (f : A -> bool) (l : list A) :
  (forall x, In x l -> f x = true) -> filter f l = l.
Proof.
  induction l as [|x l IH]; intros H; simpl; [reflexivity|].
  rewrite (H x (or_introl eq_refl)), IH; [reflexivity|].
  intros y Hy. apply H. right. exact Hy.
Qed.

Lemma last_in {A} (l : list A) (d : A) : l <> [] -> In (last l d) l.
Proof.
  induction l as [|x [|y t] IH]; intros H; [congruence|left; reflexivity|].
  right. apply IH. discriminate.
Qed.

Lemma in_firstn {A} (n : nat) (l : list A) (x : A) : In x (firstn n l) -> In x l.
Proof.
  revert l; induction n as [|n IH]; intros [|y l] H; simpl in H; try contradiction.
  destruct H as [H|H]; [left; exact H|right; apply IH; exact H].
Qed.

Lemma in_skipn {A} (n : nat) (l : list A) (x : A) : In x (skipn n l) -> In x l.
Proof.
  revert l; induction n as [|n IH]; intros [|y l] H; simpl in H; try contradiction;
    [exact H|right; apply IH; exact H].
Qed.

Lemma firstn_In_helper (t : list mem_record) (n : nat) :
  t <> [] -> 0 < n -> In (last (firstn n t) no_record) t.
Proof.
  intros Ht Hn. apply (in_firstn n). apply last_in.
  destruct t as [|y t]; [congruence|]. destruct n; [lia|]. discriminate.
Qed.

(** Deleting up to the timestamp of the [k]-th oldest record of a strictly
    ordered sequence removes exactly its first [k] records. *)
Lemma delete_up_to_kth (l : list mem_record) (k : nat) :
  StronglySorted created_before l -> 0 < k -> k <= length l ->
  filter (fun r => negb (rec_created_at r <=?
                           rec_created_at (last (firstn k l) no_record))) l =
  skipn k l.
Proof.
  intros Hs; revert k; induction Hs as [|x t Ht IH Hall]; intros k Hk Hlen;
    [simpl in Hlen; lia|].
  destruct k as [|k]; [lia|].
  rewrite Forall_forall in Hall. unfold created_before in Hall.
  destruct k as [|k].
  - simpl. rewrite Nat.leb_refl. simpl.
    apply filter_all_true. intros y Hy. specialize (Hall y Hy).
    apply negb_true_iff, Nat.leb_gt. exact Hall.
  - destruct t as [|y t']; [simpl in Hlen; lia|].
    assert (Hin : In (last (firstn (S (S k)) (x :: y :: t')) no_record) (y :: t')).
    { change (In (last (firstn (S k) (y :: t')) no_record) (y :: t')).
      apply firstn_In_helper; [discriminate|lia]. }
    set (ts := rec_created_at (last (firstn (S (S k)) (x :: y :: t')) no_record)).
    assert (Hx : (rec_created_at x <=? ts) = true).
    { apply Nat.leb_le. specialize (Hall _ Hin). unfold ts. lia. }
    rewrite filter_cons_eq, Hx. simpl negb. cbv iota.
    change (skipn (S (S k)) (x :: y :: t')) with (skipn (S k) (y :: t')).
    unfold ts.
    change (last (firstn (S (S k)) (x :: y :: t')) no_record)
      with (last (firstn (S k) (y :: t')) no_record).
    apply IH; simpl in Hlen |- *; lia.
Qed.

Lemma get_conversation_messages_spec (b : backend) (u c : string)
    (limit : nat) (d : db) :
  get_conversation_messages b u c limit d =
  (inr (if configured b && negb (select_fails b)
        then firstn limit (order_by_created_at (conv_records u c d))
        else []), d).
Proof.
  unfold get_conversation_messages, try_except, bind, get_supabase_client, ret, raise, get_db.
  destruct (configured b), (select_fails b); reflexivity.
Qed.

Lemma count_messages_spec (b : backend) (u c : string) (d : db) :
  count_messages b u c d =
  (inr (if configured b && negb (count_fails b)
        then length (conv_records u c d) else 0), d).
Proof.
  unfold count_messages, try_except, bind, get_supabase_client, ret, raise, get_db.
  destruct (configured b), (count_fails b); reflexivity.
Qed.

Definition summary_of (u c s : string) (n : nat) : summary_row :=
  {| sum_user_id := u; sum_conversation_id := c;
     sum_summary := s; sum_messages_count := n |}.

Lemma summarize_conversation_spec (b : backend) (u c s : string) (n : nat) (d : db) :
  summarize_conversation b u c s n d =
  if configured b && negb (summary_insert_fails b)
  then (inr true, {| memory_vectors := memory_vectors d;
                     summaries := summaries d ++ [summary_of u c s n] |})
  else (inr false, d).
Proof.
  unfold summarize_conversation, try_except, bind, get_supabase_client, ret, raise,
    get_db, put_db.
  destruct (configured b), (summary_insert_fails b); reflexivity.
Qed.

Lemma delete_up_to_spec (b : backend) (u c : string) (ts : nat) (d : db) :
  delete_up_to b u c ts d =
  if delete_fails b then (inl "delete failed", d)
  else (inr tt, {| memory_vectors :=
                     filter (fun r => negb (is_conv u c r && (rec_created_at r <=? ts)))
                            (memory_vectors d);
                   summaries := summaries d |}).
Proof.
  unfold delete_up_to, bind, get_db, put_db, raise.
  destruct (delete_fails b); reflexivity.
Qed.

(** The records a run of [summarize_and_prune] leaves: the table as it was,
    or the table less the conversation's records created no later than the
    last record handed to the summarizer, after at least 20 records were
    fetched. *)
Lemma summarize_and_prune_records (b : backend) (u c prov model : string) (d : db) :
  let msgs := if configured b && negb (select_fails b)
              then firstn 100 (order_by_created_at (conv_records u c d)) else [] in
  let d' := snd (summarize_and_prune b u c prov model d) in
  memory_vectors d' = memory_vectors d \/
  (20 <= length msgs /\
   memory_vectors d' =
     filter (fun r => negb (is_conv u c r &&
               (rec_created_at r <=? rec_created_at (last (drop_last_10 msgs) no_record))))
            (memory_vectors d)).
Proof.
  cbv zeta.
  unfold summarize_and_prune, try_except, bind, get_supabase_client, ret, raise.
  destruct (configured b) eqn:Hc; cbv beta iota; [|left; reflexivity].
  rewrite get_conversation_messages_spec, Hc. cbv beta iota.
  set (msgs := if true && negb (select_fails b) then _ else _).
  destruct (length msgs <? 20) eqn:Hlt; cbv beta iota; [left; reflexivity|].
  apply Nat.ltb_ge in Hlt.
  destruct (llm_complete b prov model _) as [s|]; cbv beta iota; [|left; reflexivity].
  rewrite summarize_conversation_spec, Hc.
  destruct (true && negb (summary_insert_fails b)); cbv beta iota;
    (destruct (0 <? length (drop_last_10 msgs)); cbv beta iota;
     [rewrite delete_up_to_spec; destruct (delete_fails b); cbv beta iota;
      [left; reflexivity|right; split; [exact Hlt|reflexivity]]
     |left; reflexivity]).
Qed.

(** On a conversation stored in strict [created_at] order, a run of
    [summarize_and_prune] leaves the other records as they were, and the
    conversation either untouched or with its first [m - 10] records
    deleted, [m] being the number of records fetched ([min 100 n], with
    [m >= 20]). *)
Lemma summarize_and_prune_prefix (b : backend) (u c prov model : string) (d : db) :
  StronglySorted created_before (conv_records u c d) ->
  let conv := conv_records u c d in
  let d' := snd (summarize_and_prune b u c prov model d) in
  filter (fun r => negb (is_conv u c r)) (memory_vectors d') =
    filter (fun r => negb (is_conv u c r)) (memory_vectors d) /\
  (conv_records u c d' = conv \/
   (20 <= Nat.min 100 (length conv) /\
    conv_records u c d' = skipn (Nat.min 100 (length conv) - 10) conv)).
Proof.
  intros Hs. cbv zeta.
  destruct (summarize_and_prune_records b u c prov model d) as [E|[Hlen E]].
  - unfold conv_records. rewrite E. split; [reflexivity|left; reflexivity].
  - split; [rewrite E; apply others_after_delete|right].
    set (msgs := if configured b && negb (select_fails b) then _ else _) in *.
    assert (Hc : conv_records u c (snd (summarize_and_prune b u c prov model d)) =
      filter (fun r => negb (rec_created_at r <=?
                               rec_created_at (last (drop_last_10 msgs) no_record)))
             (conv_records u c d)).
    { unfold conv_records at 1. rewrite E. apply conv_records_after_delete. }
    rewrite Hc. clear Hc E.
    set (conv := conv_records u c d) in *.
    unfold msgs in *; clear msgs.
    destruct (configured b && negb (select_fails b)); [|simpl in Hlen; lia].
    rewrite order_by_created_at_sorted in Hlen |- * by exact Hs.
    rewrite length_firstn in Hlen.
    split; [exact Hlen|].
    unfold drop_last_10. rewrite length_firstn, firstn_firstn.
    replace (Nat.min (Nat.min 100 (length conv) - 10) 100)
      with (Nat.min 100 (length conv) - 10) by lia.
    apply delete_up_to_kth; [exact Hs|lia|lia].
Qed.

Lemma sorted_firstn_skipn (l : list mem_record) (k : nat) (x y : mem_record) :
  StronglySorted created_before l ->
  In x (firstn k l) -> In y (skipn k l) -> created_before x y.
Proof.
  intros Hs; revert k; induction Hs as [|h t Ht IH Hall]; intros k Hx Hy.
  - destruct k; simpl in Hx; contradiction.
  - destruct k as [|k]; simpl in Hx; [contradiction|].
    destruct Hx as [<-|Hx].
    + rewrite Forall_forall in Hall. apply Hall. apply (in_skipn k). exact Hy.
    + exact (IH k Hx Hy).
Qed.

Lemma in_skipn_le {A} (k1 k2 : nat) (l : list A) (x : A) :
  k1 <= k2 -> In x (skipn k2 l) -> In x (skipn k1 l).
Proof.
  intros Hk Hx. replace k2 with ((k2 - k1) + k1) in Hx by lia.
  rewrite <- skipn_skipn in Hx. exact (in_skipn _ _ _ Hx).
Qed.

Lemma length_conv_messages (b : backend) (u c : string) (limit : nat) (d : db) :
  length (if configured b && negb (select_fails b)
          then firstn limit (order_by_created_at (conv_records u c d)) else [])
  <= length (conv_records u c d).
Proof.
  destruct (configured b && negb (select_fails b)); simpl; [|lia].
  rewrite length_firstn, order_by_created_at_length. lia.
Qed.

(* ------------------------------------------------------------------ *)
(** ** Claims on the pruning controller *)

(** C1 (code defect): when the summary insert fails, [summarize_conversation]
    reports [False] without raising, [summarize_and_prune] ignores that
    result and deletes the summarized records anyway: on a 20-record
    conversation it returns [True], stores no summary, and leaves 10 of the
    20 records. *)
Theorem summarize_and_prune_insert_failure_deletes :
  let d := sample_db 20 in
  let r := summarize_and_prune backend_insert_fails "u1" "c1" "OpenAI" "gpt-4" d in
  fst r = inr true /\
  summaries (snd r) = summaries d /\
  length (conv_records "u1" "c1" d) = 20 /\
  length (conv_records "u1" "c1" (snd r)) = 10.
Proof. vm_compute. repeat split. Qed.

(** C4: on a conversation whose records are stored in strictly increasing
    [created_at] order, every one of its 10 most recent records is still
    stored after [summarize_and_prune], whatever its collaborators do. *)
Theorem summarize_and_prune_keeps_last_10 (b : backend)
    (u c provider model : string) (d : db)
    (Hinc : strictly_increasing (map rec_created_at (conv_records u c d)) = true)
    (r : mem_record) :
  In r (skipn (length (conv_records u c d) - 10) (conv_records u c d)) ->
  In r (conv_records u c (snd (summarize_and_prune b u c provider model d))).
Proof.
  intros Hr. apply strictly_increasing_sorted in Hinc.
  destruct (summarize_and_prune_prefix b u c provider model d Hinc)
    as [_ [E|[Hlen E]]]; rewrite E.
  - exact (in_skipn _ _ _ Hr).
  - apply (in_skipn_le _ (length (conv_records u c d) - 10)); [lia|exact Hr].
Qed.

(** C5: on a conversation of exactly 25 records stored in strictly
    increasing [created_at] order, a pass in which every collaborator
    answers returns [True], appends exactly one summary, with
    [messages_count = 15], and leaves exactly the 10 most recent records. *)
Theorem summarize_and_prune_25 (b : backend) (u c provider model : string) (d : db)
    (Hcfg : configured b = true) (Hsel : select_fails b = false)
    (Hins : summary_insert_fails b = false) (Hdel : delete_fails b = false)
    (Hllm : forall prompt, llm_complete b provider model prompt <> None)
    (Hinc : strictly_increasing (map rec_created_at (conv_records u c d)) = true)
    (H25 : length (conv_records u c d) = 25) :
  let r := summarize_and_prune b u c provider model d in
  fst r = inr true /\
  (exists s, summaries (snd r) = app (summaries d) [summary_of u c s 15]) /\
  conv_records u c (snd r) = skipn 15 (conv_records u c d) /\
  length (conv_records u c (snd r)) = 10.
Proof.
  apply strictly_increasing_sorted in Hinc.
  cbv zeta.
  unfold summarize_and_prune, try_except, bind, get_supabase_client, ret, raise.
  rewrite Hcfg. cbv beta iota.
  rewrite get_conversation_messages_spec, Hcfg, Hsel. cbn [andb negb].
  cbv beta iota.
  rewrite order_by_created_at_sorted by exact Hinc.
  rewrite (firstn_all2 (n := 100)) by lia.
  rewrite H25. change (25 <? 20) with false. cbv beta iota.
  destruct (llm_complete b provider model _) as [s|] eqn:Hl;
    [|exfalso; eapply Hllm; exact Hl].
  cbv beta iota.
  rewrite summarize_conversation_spec, Hcfg, Hins. cbn [andb negb].
  cbv beta iota.
  unfold drop_last_10. rewrite length_firstn, H25. change (Nat.min (25 - 10) 25) with 15. change (25 - 10) with 15.
  change (0 <? 15) with true. cbv beta iota.
  rewrite delete_up_to_spec, Hdel. cbv beta iota.
  cbn [fst snd].
  assert (Hdel15 : conv_records u c
     {| memory_vectors :=
          filter (fun r => negb (is_conv u c r &&
             (rec_created_at r <=?
              rec_created_at (last (firstn 15 (conv_records u c d)) no_record))))
            (memory_vectors d);
        summaries := summaries d ++ [summary_of u c s 15] |} =
     skipn 15 (conv_records u c d)).
  { unfold conv_records at 1. cbn [memory_vectors].
    rewrite conv_records_after_delete.
    apply delete_up_to_kth; [exact Hinc|lia|lia]. }
  split; [reflexivity|]. split; [exists s; reflexivity|].
  split; [exact Hdel15|].
  refine (eq_trans (f_equal (@length _) Hdel15) _).
  rewrite length_skipn, H25. reflexivity.
Qed.

(** C6: when a conversation holds fewer than 20 records, the pruning check
    run after a chat turn leaves the store (records and summaries) exactly
    as it was, and so does a direct call of [summarize_and_prune]. *)
Theorem pruning_check_below_threshold (b : backend) (u c provider model : string)
    (d : db) (Hlt : length (conv_records u c d) < 20) :
  snd (pruning_check b u c provider model d) = d /\
  snd (summarize_and_prune b u c provider model d) = d.
Proof.
  assert (Hsap : snd (summarize_and_prune b u c provider model d) = d).
  { unfold summarize_and_prune, try_except, bind, get_supabase_client, ret, raise.
    destruct (configured b) eqn:Hc; cbv beta iota; [|reflexivity].
    rewrite get_conversation_messages_spec. cbv beta iota.
    pose proof (length_conv_messages b u c 100 d) as Hle.
    replace (length _ <? 20) with true by (symmetry; apply Nat.ltb_lt; lia).
    reflexivity. }
  split; [|exact Hsap].
  unfold pruning_check, bind at 1. rewrite count_messages_spec. cbv beta iota.
  destruct (configured b && negb (count_fails b)).
  - replace (20 <=? length (conv_records u c d)) with false
      by (symmetry; apply Nat.leb_gt; lia).
    reflexivity.
  - reflexivity.
Qed.

(** C9: on a conversation stored in strictly increasing [created_at] order,
    a run of [summarize_and_prune] deletes a prefix of the conversation's
    records: what remains is [skipn k] of the sequence for some [k], every
    deleted record is older than every kept one, and the records of other
    conversations are untouched. *)
Theorem summarize_and_prune_deletes_prefix (b : backend)
    (u c provider model : string) (d : db)
    (Hinc : strictly_increasing (map rec_created_at (conv_records u c d)) = true) :
  let conv := conv_records u c d in
  let d' := snd (summarize_and_prune b u c provider model d) in
  filter (fun r => negb (is_conv u c r)) (memory_vectors d') =
    filter (fun r => negb (is_conv u c r)) (memory_vectors d) /\
  exists k, conv_records u c d' = skipn k conv /\
    (forall x y, In x (firstn k conv) -> In y (skipn k conv) ->
                 rec_created_at x < rec_created_at y).
Proof.
  apply strictly_increasing_sorted in Hinc. cbv zeta.
  destruct (summarize_and_prune_prefix b u c provider model d Hinc)
    as [Hother Hconv].
  split; [exact Hother|].
  assert (Hord : forall k x y, In x (firstn k (conv_records u c d)) ->
                   In y (skipn k (conv_records u c d)) ->
                   rec_created_at x < rec_created_at y)
    by (intros k x y Hx Hy; exact (sorted_firstn_skipn _ k x y Hinc Hx Hy)).
  destruct Hconv as [E|[_ E]].
  - exists 0. split; [exact E|apply Hord].
  - eexists. split; [exact E|apply Hord].
Qed.

(* ------------------------------------------------------------------ *)
(** ** The theorems at concrete inputs *)

Lemma count_tokens_empty_witness :
  (forall enc, no_tiktoken enc "" = None \/ no_tiktoken enc "" = Some []) /\
  (0 <= count_tokens no_tiktoken "Gemini" "gemini-2.5-pro" "" /\
   count_tokens no_tiktoken "Gemini" "gemini-2.5-pro" "" =
     (if String.eqb "Gemini" "Anthropic" || String.eqb "Gemini" "Gemini"
      then 1 else 0)).
Proof.
  split; [intros enc; left; reflexivity|].
  apply (count_tokens_empty no_tiktoken). intros enc; left; reflexivity.
Defined.

Lemma estimate_cost_unknown_zero_witness :
  is_model_supported "OpenAI" "unknown-model-xyz" = false /\
  fuzzy_key "OpenAI" (Py.lower "unknown-model-xyz") = None /\
  (estimate_cost exact "OpenAI" "unknown-model-xyz" 1000 1000 = 0%Q /\
   is_model_supported "OpenAI" "unknown-model-xyz" = false /\
   ti_cost_accuracy (get_token_info exact no_tiktoken "OpenAI" "unknown-model-xyz"
                       [[("role", "user"); ("content", "hello")]] "hi")
     = "estimated").
Proof.
  split; [vm_compute; reflexivity|]. split; [vm_compute; reflexivity|].
  apply estimate_cost_unknown_zero; vm_compute; reflexivity.
Defined.

Lemma estimate_cost_monotone_witness :
  (forall x y, (x <= y)%Q -> (exact x <= exact y)%Q) /\
  (500 <= 2000)%nat /\
  (inject_Z (Z.of_nat 2000) / inject_Z 1000 < float_overflow_bound)%Q /\
  (estimate_cost exact "Gemini" "gemini-2.5-flash-preview" 500 100 <=
   estimate_cost exact "Gemini" "gemini-2.5-flash-preview" 2000 100)%Q.
Proof.
  assert (Hm : forall x y, (x <= y)%Q -> (exact x <= exact y)%Q) by (intros x y H; exact H).
  assert (Hb : (inject_Z (Z.of_nat 2000) / inject_Z 1000 < float_overflow_bound)%Q)
    by (vm_compute; reflexivity).
  split; [exact Hm|]. split; [lia|]. split; [exact Hb|].
  apply (proj1 (estimate_cost_monotone exact Hm "Gemini" "gemini-2.5-flash-preview")
           500 2000 100); [lia|exact Hb].
Defined.

(** C8 (counterexample): a token count whose quotient by 1000 overflows a
    float makes [tokens / 1000] raise [OverflowError], caught by
    [estimate_cost], which returns [0.0]; so [10^400] input tokens cost
    less than [1000] for gpt-4, and [estimate_cost] is not monotonic over
    all non-negative counts. *)
Theorem estimate_cost_overflow_not_monotone :
  (1000 <= Z.to_nat (10 ^ 400))%nat /\
  (forall rnd : Q -> Q,
     estimate_cost rnd "OpenAI" "gpt-4" (Z.to_nat (10 ^ 400)) 0 = 0%Q) /\
  (estimate_cost exact "OpenAI" "gpt-4" 1000 0 == 3 # 100)%Q.
Proof.
  split; [|split].
  - apply Nat2Z.inj_le. rewrite Z2Nat.id by (apply Z.pow_nonneg; lia).
    vm_compute. intros H; discriminate H.
  - intros rnd. unfold estimate_cost.
    rewrite Z2Nat.id by (apply Z.pow_nonneg; lia).
    vm_compute. reflexivity.
  - vm_compute. reflexivity.
Qed.

Lemma get_token_info_accuracy_witness :
  (forall x y, (x <= y)%Q -> (exact x <= exact y)%Q) /\ (exact 0 == 0)%Q /\
  (let info := get_token_info exact no_tiktoken "OpenAI" "gpt-4.1-preview"
                 [[("role", "user"); ("content", "hello")]] "hi" in
   (ti_cost_accuracy info = "accurate" <->
      is_model_supported "OpenAI" "gpt-4.1-preview" = true \/
      (0 < ti_estimated_cost info)%Q) /\
   (ti_cost_accuracy info = "estimated" <->
      is_model_supported "OpenAI" "gpt-4.1-preview" = false /\
      (ti_estimated_cost info == 0)%Q) /\
   (is_model_supported "OpenAI" "gpt-4.1-preview" = false ->
    fuzzy_key "OpenAI" (Py.lower "gpt-4.1-preview") <> None ->
    (0 < ti_estimated_cost info)%Q -> ti_cost_accuracy info = "accurate")).
Proof.
  split; [intros x y H; exact H|]. split; [reflexivity|].
  apply get_token_info_accuracy; [intros x y H; exact H|reflexivity].
Defined.

Lemma summarize_and_prune_keeps_last_10_witness :
  strictly_increasing (map rec_created_at (conv_records "u1" "c1" (sample_db 25))) = true /\
  In newest_of_25 (skipn (length (conv_records "u1" "c1" (sample_db 25)) - 10)
                         (conv_records "u1" "c1" (sample_db 25))) /\
  In newest_of_25
     (conv_records "u1" "c1"
        (snd (summarize_and_prune backend_ok "u1" "c1" "OpenAI" "gpt-4" (sample_db 25)))).
Proof.
  split; [vm_compute; reflexivity|].
  assert (Hin : In newest_of_25
                  (skipn (length (conv_records "u1" "c1" (sample_db 25)) - 10)
                         (conv_records "u1" "c1" (sample_db 25)))).
  { vm_compute. do 9 right. left. reflexivity. }
  split; [exact Hin|].
  apply (summarize_and_prune_keeps_last_10 backend_ok "u1" "c1" "OpenAI" "gpt-4"
           (sample_db 25)); [vm_compute; reflexivity|exact Hin].
Defined.

Lemma summarize_and_prune_25_witness :
  configured backend_ok = true /\ select_fails backend_ok = false /\
  summary_insert_fails backend_ok = false /\ delete_fails backend_ok = false /\
  (forall prompt, llm_complete backend_ok "OpenAI" "gpt-4" prompt <> None) /\
  strictly_increasing (map rec_created_at (conv_records "u1" "c1" (sample_db 25))) = true /\
  length (conv_records "u1" "c1" (sample_db 25)) = 25 /\
  (let r := summarize_and_prune backend_ok "u1" "c1" "OpenAI" "gpt-4" (sample_db 25) in
   fst r = inr true /\
   (exists s, summaries (snd r) = app (summaries (sample_db 25)) [summary_of "u1" "c1" s 15]) /\
   conv_records "u1" "c1" (snd r) = skipn 15 (conv_records "u1" "c1" (sample_db 25)) /\
   length (conv_records "u1" "c1" (snd r)) = 10).
Proof.
  do 4 (split; [reflexivity|]).
  split; [intros p; discriminate|].
  split; [vm_compute; reflexivity|]. split; [vm_compute; reflexivity|].
  apply summarize_and_prune_25;
    first [reflexivity | intros p; discriminate | vm_compute; reflexivity].
Defined.

Lemma pruning_check_below_threshold_witness :
  length (conv_records "u1" "c1" (sample_db 19)) < 20 /\
  snd (pruning_check backend_ok "u1" "c1" "OpenAI" "gpt-4" (sample_db 19)) = sample_db 19 /\
  snd (summarize_and_prune backend_ok "u1" "c1" "OpenAI" "gpt-4" (sample_db 19)) = sample_db 19.
Proof.
  split; [vm_compute; lia|].
  apply pruning_check_below_threshold. vm_compute. lia.
Defined.

Lemma summarize_and_prune_deletes_prefix_witness :
  strictly_increasing (map rec_created_at (conv_records "u1" "c1" (sample_db 30))) = true /\
  (let conv := conv_records "u1" "c1" (sample_db 30) in
   let d' := snd (summarize_and_prune backend_ok "u1" "c1" "OpenAI" "gpt-4" (sample_db 30)) in
   filter (fun r => negb (is_conv "u1" "c1" r)) (memory_vectors d') =
     filter (fun r => negb (is_conv "u1" "c1" r)) (memory_vectors (sample_db 30)) /\
   exists k, conv_records "u1" "c1" d' = skipn k conv /\
     (forall x y, In x (firstn k conv) -> In y (skipn k conv) ->
                  rec_created_at x < rec_created_at y)).
Proof.
  split; [vm_compute; reflexivity|].
  apply summarize_and_prune_deletes_prefix. vm_compute. reflexivity.
Defined.

(* ================================================================== *)
(** * Further properties of the estimator *)

Lemma dict_mem_get_price (pp : list (string * price)) (k : string) :
  Py.dict_mem pp k = true -> exists p, get_price pp k = Some p /\ In (k, p) pp.
Proof.
  unfold get_price, Py.dict_mem.
  induction pp as [|[k' v] pp IH]; simpl; [discriminate|].
  destruct (String.eqb k k') eqn:E; simpl.
  - intros _. apply String.eqb_eq in E; subst. exists v. split; [reflexivity|left; reflexivity].
  - intros H. destruct (IH H) as [p [Hp Hin]]. exists p. split; [exact Hp|right; exact Hin].
Qed.

Lemma get_price_some_mem (pp : list (string * price)) (k : string) (p : price) :
  get_price pp k = Some p -> Py.dict_mem pp k = true.
Proof.
  intros H. destruct (Py.dict_mem pp k) eqn:E; [reflexivity|].
  rewrite (get_price_not_mem _ _ E) in H. discriminate.
Qed.

(** Every key a fuzzy rule selects is a key of the provider's pricing. *)
Lemma fuzzy_key_in_table (provider model_lower k : string) :
  fuzzy_key provider model_lower = Some k ->
  Py.dict_mem (provider_pricing provider) k = true.
Proof.
  unfold fuzzy_key.
  destruct (String.eqb provider "OpenAI") eqn:EO;
    [apply String.eqb_eq in EO; subst provider|];
  [|destruct (String.eqb provider "Anthropic") eqn:EA;
    [apply String.eqb_eq in EA; subst provider|];
    [|destruct (String.eqb provider "Gemini") eqn:EG;
      [apply String.eqb_eq in EG; subst provider|]]];
  repeat match goal with
         | |- context [if ?c then _ else _] => destruct c
         end;
  intros H; try discriminate; injection H as <-; vm_compute; reflexivity.
Qed.

Open Scope Q_scope.

(** X2: [estimate_cost] finds a pricing entry exactly when the model is
    supported (exact match) or a fuzzy rule fires on its lower-cased name:
    every fuzzy rule points at an entry that exists. *)
Theorem model_pricing_none_iff (provider model : string) :
  model_pricing provider model = None <->
  is_model_supported provider model = false /\
  fuzzy_key provider (Py.lower model) = None.
Proof.
  unfold model_pricing, is_model_supported. split.
  - destruct (get_price (provider_pricing provider) model) eqn:E; [discriminate|].
    intros H. split.
    + destruct (Py.dict_mem (provider_pricing provider) model) eqn:M; [|reflexivity].
      destruct (dict_mem_get_price _ _ M) as [p [Hp _]]. congruence.
    + destruct (fuzzy_key provider (Py.lower model)) as [k|] eqn:F; [|reflexivity].
      destruct (dict_mem_get_price _ _ (fuzzy_key_in_table _ _ _ F)) as [p [Hp _]].
      congruence.
  - intros [Hm Hf]. rewrite (get_price_not_mem _ _ Hm), Hf. reflexivity.
Qed.

Close Scope Q_scope.

Lemma split_len_aux_space (b : bool) (s t : string) :
  Py.split_len_aux b (s ++ String " " t) =
  Py.split_len_aux b s + Py.split_len_aux false t.
Proof.
  revert b; induction s as [|ch s IH]; intros b; simpl.
  - reflexivity.
  - destruct (Py.is_space ch); [apply IH|]. rewrite IH. lia.
Qed.

Lemma string_length_append (s t : string) :
  String.length (s ++ t) = String.length s + String.length t.
Proof. induction s as [|ch s IH]; simpl; [reflexivity|rewrite IH; reflexivity]. Qed.



(** X4: for Anthropic and Gemini the token estimate of any text is at least
    1, and appending text to it never lowers the estimate. *)
Theorem count_tokens_heuristic_bounds
    (encode : string -> string -> option (list nat)) (provider model s t : string) :
  provider = "Anthropic" \/ provider = "Gemini" ->
  1 <= count_tokens encode provider model s /\
  count_tokens encode provider model s <= count_tokens encode provider model (s ++ t).
Proof.
  intros [->| ->];
    [change (count_tokens encode "Anthropic" model) with count_anthropic_tokens
    |change (count_tokens encode "Gemini" model) with count_gemini_tokens];
    unfold count_anthropic_tokens, count_gemini_tokens; rewrite string_length_append;
    (split; [apply Nat.le_max_l|]);
    apply Nat.max_le_compat_l, Nat.Div0.div_le_mono; lia.
Qed.

Lemma count_tokens_heuristic_bounds_witness :
  ("Gemini" = "Anthropic" \/ "Gemini" = "Gemini") /\
  1 <= count_tokens no_tiktoken "Gemini" "gemini-2.5-pro" "hello" /\
  count_tokens no_tiktoken "Gemini" "gemini-2.5-pro" "hello" <=
    count_tokens no_tiktoken "Gemini" "gemini-2.5-pro" ("hello" ++ " world").
Proof.
  split; [right; reflexivity|].
  apply count_tokens_heuristic_bounds. right. reflexivity.
Defined.

(** X5: when the tokenizer raises, the OpenAI count is the word count scaled
    by 1.3 and truncated: at least the word count, at most 1.3 times it. *)
Theorem count_openai_fallback_bounds
    (encode : string -> string -> option (list nat)) (model text : string) :
  (forall enc, encode enc text = None) ->
  Py.split_len text <= count_tokens encode "OpenAI" model text /\
  10 * count_tokens encode "OpenAI" model text <= 13 * Py.split_len text.
Proof.
  intros H.
  change (count_tokens encode "OpenAI" model text)
    with (count_openai_tokens encode model text).
  unfold count_openai_tokens.
  match goal with |- context [encode ?e text] => rewrite (H e) end.
  set (n := Py.split_len text). clearbody n.
  pose proof (Nat.div_mod (n * 13) 10 ltac:(lia)).
  pose proof (Nat.mod_upper_bound (n * 13) 10 ltac:(lia)). lia.
Qed.

Lemma count_openai_fallback_bounds_witness :
  (forall enc, no_tiktoken enc "one two three" = None) /\
  Py.split_len "one two three" <= count_tokens no_tiktoken "OpenAI" "gpt-4o" "one two three" /\
  10 * count_tokens no_tiktoken "OpenAI" "gpt-4o" "one two three" <=
    13 * Py.split_len "one two three".
Proof.
  split; [intros enc; reflexivity|].
  apply count_openai_fallback_bounds. intros enc. reflexivity.
Defined.
(** X6: for a provider other than OpenAI, Anthropic and Gemini the count is
    the whitespace word count, so two texts joined by a space count as the
    sum of their counts. *)
Theorem count_tokens_fallback_additive
    (encode : string -> string -> option (list nat)) (provider model s t : string) :
  provider <> "OpenAI" -> provider <> "Anthropic" -> provider <> "Gemini" ->
  count_tokens encode provider model (s ++ String " " t) =
  count_tokens encode provider model s + count_tokens encode provider model t.
Proof.
  intros H1 H2 H3. unfold count_tokens.
  apply String.eqb_neq in H1, H2, H3. rewrite H1, H2, H3.
  apply split_len_aux_space.
Qed.

Lemma count_tokens_fallback_additive_witness :
  "Mistral" <> "OpenAI" /\ "Mistral" <> "Anthropic" /\ "Mistral" <> "Gemini" /\
  count_tokens no_tiktoken "Mistral" "small" ("hello world" ++ String " " "again") =
  count_tokens no_tiktoken "Mistral" "small" "hello world" +
  count_tokens no_tiktoken "Mistral" "small" "again".
Proof.
  do 3 (split; [discriminate|]).
  apply count_tokens_fallback_additive; discriminate.
Defined.



(** X7: the count of a concatenated message list is the sum of the counts of
    its parts less one conversation overhead of 3. *)
Theorem count_messages_tokens_app
    (encode : string -> string -> option (list nat)) (provider model : string)
    (ms1 ms2 : list message) :
  count_messages_tokens encode provider model (ms1 ++ ms2) + 3 =
  count_messages_tokens encode provider model ms1 +
  count_messages_tokens encode provider model ms2.
Proof.
  unfold count_messages_tokens. rewrite !count_messages_loop_sum.
  rewrite map_app, list_sum_app, length_app. unfold message. lia.
Qed.

(* ================================================================== *)
(** * Further properties of the store, the chat turn and the providers *)

Lemma add_message_spec (b : backend) (i now : nat) (fails : bool)
    (u role content c : string) (d : db) :
  add_message b i now fails u role content c d =
  if configured b && negb fails
  then (inr true, {| memory_vectors := app (memory_vectors d) [new_record i now u role content c];
                     summaries := summaries d |})
  else (inr false, d).
Proof.
  unfold add_message, try_except, bind, get_supabase_client, ret, raise, get_db, put_db.
  destruct (configured b), fails; reflexivity.
Qed.

Lemma is_conv_new_record (i now : nat) (u role content c : string) :
  is_conv u c (new_record i now u role content c) = true.
Proof. unfold is_conv; simpl. rewrite !String.eqb_refl. reflexivity. Qed.

(** X9: [add_message] returns [True] exactly when the client is configured
    and the insert answers; the new record is then appended to the table and
    to the records of its conversation.  Otherwise it returns [False] and
    leaves the store as it was.  The summaries never change. *)
Theorem add_message_effect (b : backend) (i now : nat) (fails : bool)
    (u role content c : string) (d : db) :
  let res := add_message b i now fails u role content c d in
  let ok := configured b && negb fails in
  fst res = inr ok /\
  memory_vectors (snd res) =
    (if ok then app (memory_vectors d) [new_record i now u role content c]
     else memory_vectors d) /\
  conv_records u c (snd res) =
    (if ok then app (conv_records u c d) [new_record i now u role content c]
     else conv_records u c d) /\
  summaries (snd res) = summaries d.
Proof.
  cbv zeta. rewrite add_message_spec.
  destruct (configured b && negb fails); cbn [fst snd memory_vectors summaries];
    [|repeat split].
  unfold conv_records; cbn [memory_vectors].
  rewrite filter_app; simpl filter at 2. rewrite is_conv_new_record.
  repeat split.
Qed.

Lemma insert_by_created_at_app_last (a x : mem_record) (m : list mem_record) :
  rec_created_at a <= rec_created_at x ->
  insert_by_created_at a (app m [x]) = app (insert_by_created_at a m) [x].
Proof.
  intros Hax. induction m as [|h t IH]; simpl.
  - replace (rec_created_at a <=? rec_created_at x) with true
      by (symmetry; apply Nat.leb_le; exact Hax). reflexivity.
  - destruct (rec_created_at a <=? rec_created_at h); [reflexivity|].
    rewrite IH. reflexivity.
Qed.

Lemma order_by_created_at_app_last (l : list mem_record) (x : mem_record) :
  (forall r, In r l -> rec_created_at r <= rec_created_at x) ->
  order_by_created_at (app l [x]) = app (order_by_created_at l) [x].
Proof.
  induction l as [|a l IH]; intros H; [reflexivity|].
  change (order_by_created_at (app (a :: l) [x]))
    with (insert_by_created_at a (order_by_created_at (app l [x]))).
  rewrite IH by (intros r Hr; apply H; right; exact Hr).
  apply insert_by_created_at_app_last. apply H. left. reflexivity.
Qed.

(** X10: round trip.  On a conversation whose records are stored in
    strictly increasing [created_at] order, all created before [now],
    [get_conversation_messages] returns those records, and after
    [add_message] stores a record created at [now] it returns them followed
    by the new record, as long as the conversation held fewer than [limit]
    records. *)
Theorem add_message_get_conversation_messages (b : backend) (i now : nat)
    (u role content c : string) (limit : nat) (d : db)
    (Hcfg : configured b = true) (Hsel : select_fails b = false)
    (Hinc : strictly_increasing (map rec_created_at (conv_records u c d)) = true)
    (Hnow : forall r, In r (conv_records u c d) -> rec_created_at r < now)
    (Hlim : length (conv_records u c d) < limit) :
  let d' := snd (add_message b i now false u role content c d) in
  get_conversation_messages b u c limit d = (inr (conv_records u c d), d) /\
  get_conversation_messages b u c limit d' =
    (inr (app (conv_records u c d) [new_record i now u role content c]), d').
Proof.
  apply strictly_increasing_sorted in Hinc.
  cbv zeta. rewrite !get_conversation_messages_spec, Hcfg, Hsel. cbn [andb negb].
  split.
  - rewrite order_by_created_at_sorted by exact Hinc.
    rewrite firstn_all2 by lia. reflexivity.
  - f_equal. f_equal.
    rewrite add_message_spec, Hcfg. cbn [andb negb snd].
    unfold conv_records at 1. cbn [memory_vectors].
    rewrite filter_app. simpl filter at 2. rewrite is_conv_new_record.
    change (filter (is_conv u c) (memory_vectors d)) with (conv_records u c d).
    rewrite order_by_created_at_app_last
      by (intros r Hr; apply Nat.lt_le_incl; exact (Hnow r Hr)).
    rewrite order_by_created_at_sorted by exact Hinc.
    rewrite firstn_all2; [reflexivity|]. rewrite length_app. simpl. lia.
Qed.

Lemma delete_conversation_spec (b : backend) (fails : bool) (u c : string) (d : db) :
  delete_conversation b fails u c d =
  if configured b && negb fails
  then (inr true, {| memory_vectors := filter (fun r => negb (is_conv u c r)) (memory_vectors d);
                     summaries := summaries d |})
  else (inr false, d).
Proof.
  unfold delete_conversation, try_except, bind, get_supabase_client, ret, raise, get_db, put_db.
  destruct (configured b), fails; reflexivity.
Qed.

Lemma filter_negb_filter {A} (f : A -> bool) (l : list A) :
  filter f (filter (fun x => negb (f x)) l) = [].
Proof.
  induction l as [|x l IH]; simpl; [reflexivity|].
  destruct (f x) eqn:E; simpl; [exact IH|rewrite E; exact IH].
Qed.

Lemma filter_idem {A} (f : A -> bool) (l : list A) :
  filter f (filter f l) = filter f l.
Proof.
  induction l as [|x l IH]; simpl; [reflexivity|].
  destruct (f x) eqn:E; simpl; [rewrite E, IH; reflexivity|exact IH].
Qed.

(** X11: [delete_conversation] returns [True] exactly when the client is
    configured and the delete answers; then no record of the conversation is
    left.  The records of other users and conversations are never touched,
    and the conversation's summaries are never deleted. *)
Theorem delete_conversation_effect (b : backend) (fails : bool) (u c : string) (d : db) :
  let res := delete_conversation b fails u c d in
  let ok := configured b && negb fails in
  fst res = inr ok /\
  conv_records u c (snd res) = (if ok then [] else conv_records u c d) /\
  filter (fun r => negb (is_conv u c r)) (memory_vectors (snd res)) =
    filter (fun r => negb (is_conv u c r)) (memory_vectors d) /\
  summaries (snd res) = summaries d.
Proof.
  cbv zeta. rewrite delete_conversation_spec.
  destruct (configured b && negb fails); cbn [fst snd memory_vectors summaries];
    [|repeat split].
  unfold conv_records; cbn [memory_vectors].
  rewrite filter_negb_filter, filter_idem. repeat split.
Qed.

Lemma get_user_conversations_spec (b : backend) (fails : bool) (u : string) (d : db) :
  get_user_conversations b fails u d =
  (inr (if configured b && negb fails
        then nodup string_dec
               (filter (fun cid => negb (String.eqb cid ""))
                  (map rec_conversation_id
                     (filter (fun r => String.eqb (rec_user_id r) u) (memory_vectors d))))
        else []), d).
Proof.
  unfold get_user_conversations, try_except, bind, get_supabase_client, ret, raise, get_db.
  destruct (configured b), fails; reflexivity.
Qed.

(** X12: [get_user_conversations] leaves the store as it is and returns a
    list without duplicates.  An id is listed exactly when the calls succeed,
    the id is not empty and some stored record of the user has it. *)
Theorem get_user_conversations_members (b : backend) (fails : bool) (u : string) (d : db) :
  let res := get_user_conversations b fails u d in
  snd res = d /\
  exists ids, fst res = inr ids /\ NoDup ids /\
    forall cid, In cid ids <->
      configured b && negb fails = true /\ cid <> "" /\
      exists r, In r (memory_vectors d) /\ rec_user_id r = u /\ rec_conversation_id r = cid.
Proof.
  cbv zeta. rewrite get_user_conversations_spec. cbn [fst snd].
  split; [reflexivity|]. eexists. split; [reflexivity|].
  destruct (configured b && negb fails).
  - split; [apply NoDup_nodup|]. intros cid.
    rewrite nodup_In, filter_In, in_map_iff, negb_true_iff, String.eqb_neq.
    split.
    + intros [[r [Hc Hr]] Hne]. apply filter_In in Hr as [Hr Hu].
      apply String.eqb_eq in Hu.
      split; [reflexivity|]. split; [exact Hne|]. exists r. auto.
    + intros [_ [Hne [r [Hr [Hu Hc]]]]]. split; [|exact Hne].
      exists r. split; [exact Hc|]. apply filter_In. split; [exact Hr|].
      apply String.eqb_eq. exact Hu.
  - split; [constructor|]. intros cid. split; [intros []|intros [H _]; discriminate].
Qed.

Lemma in_insert_by_created_at (r y : mem_record) (l : list mem_record) :
  In y (insert_by_created_at r l) <-> r = y \/ In y l.
Proof.
  induction l as [|h t IH]; simpl.
  - tauto.
  - destruct (rec_created_at r <=? rec_created_at h); simpl; [tauto|].
    rewrite IH. tauto.
Qed.

Lemma in_order_by_created_at (y : mem_record) (l : list mem_record) :
  In y (order_by_created_at l) <-> In y l.
Proof.
  induction l as [|a l IH]; simpl; [tauto|].
  rewrite in_insert_by_created_at, IH. split; intros [H|H]; auto.
Qed.

Lemma insert_by_created_at_hd (h r : mem_record) (t : list mem_record) :
  HdRel created_le h t -> created_le h r -> HdRel created_le h (insert_by_created_at r t).
Proof.
  intros Ht Hr. destruct t as [|h' t']; simpl; [constructor; exact Hr|].
  destruct (rec_created_at r <=? rec_created_at h'); constructor;
    [exact Hr|inversion Ht; assumption].
Qed.

Lemma insert_by_created_at_sorted (r : mem_record) (l : list mem_record) :
  Sorted created_le l -> Sorted created_le (insert_by_created_at r l).
Proof.
  induction l as [|h t IH]; intros Hs; simpl; [repeat constructor|].
  apply Sorted_inv in Hs as [Ht Hh].
  destruct (rec_created_at r <=? rec_created_at h) eqn:E.
  - constructor; [constructor; assumption|constructor].
    apply Nat.leb_le in E. exact E.
  - constructor; [apply IH; exact Ht|].
    apply insert_by_created_at_hd; [exact Hh|].
    apply Nat.leb_gt in E. unfold created_le. lia.
Qed.

Lemma order_by_created_at_sorted_le (l : list mem_record) :
  Sorted created_le (order_by_created_at l).
Proof.
  induction l as [|a l IH]; simpl; [constructor|].
  apply insert_by_created_at_sorted. exact IH.
Qed.

Lemma sorted_firstn {A} (R : A -> A -> Prop) (n : nat) (l : list A) :
  Sorted R l -> Sorted R (firstn n l).
Proof.
  revert l; induction n as [|n IH]; intros l Hs; [constructor|].
  destruct l as [|x t]; [constructor|]. simpl.
  apply Sorted_inv in Hs as [Ht Hh]. constructor; [apply IH; exact Ht|].
  destruct n as [|n]; [constructor|]. destruct t as [|y t']; [constructor|].
  simpl. constructor. inversion Hh; assumption.
Qed.

(** X13: [get_conversation_messages] leaves the store as it is.  It returns
    at most [limit] records, each a stored record of the given user and
    conversation, in non-decreasing [created_at] order. *)
Theorem get_conversation_messages_props (b : backend) (u c : string)
    (limit : nat) (d : db) :
  let res := get_conversation_messages b u c limit d in
  snd res = d /\
  exists msgs, fst res = inr msgs /\ length msgs <= limit /\
    (forall r, In r msgs ->
       In r (memory_vectors d) /\ rec_user_id r = u /\ rec_conversation_id r = c) /\
    Sorted (fun x y => rec_created_at x <= rec_created_at y) msgs.
Proof.
  cbv zeta. rewrite get_conversation_messages_spec. cbn [fst snd].
  split; [reflexivity|]. eexists. split; [reflexivity|].
  destruct (configured b && negb (select_fails b)).
  - split; [rewrite length_firstn; lia|]. split.
    + intros r Hr. apply in_firstn in Hr. rewrite in_order_by_created_at in Hr.
      unfold conv_records in Hr. apply filter_In in Hr as [Hr Hc].
      unfold is_conv in Hc. apply andb_true_iff in Hc as [Hu Hc].
      apply String.eqb_eq in Hu, Hc. auto.
    + apply sorted_firstn, order_by_created_at_sorted_le.
  - split; [simpl; lia|]. split; [intros r []|constructor].
Qed.

(** X14: when [summarize_and_prune] returns [False], no record has been
    deleted.  The summaries are unchanged, except when the summary insert
    succeeded and the final delete then raised: they hold one more row for
    the conversation. *)
Theorem summarize_and_prune_false_keeps_records (b : backend)
    (u c provider model : string) (d : db) :
  let res := summarize_and_prune b u c provider model d in
  fst res = inr false ->
  memory_vectors (snd res) = memory_vectors d /\
  (summaries (snd res) = summaries d \/
   (summary_insert_fails b = false /\ delete_fails b = true /\
    exists s n, summaries (snd res) = app (summaries d) [summary_of u c s n])).
Proof.
  cbv zeta.
  unfold summarize_and_prune, try_except, bind, get_supabase_client, ret, raise.
  destruct (configured b) eqn:Hc; cbv beta iota; [|intros _; auto].
  rewrite get_conversation_messages_spec, Hc. cbv beta iota.
  set (msgs := if true && negb (select_fails b) then _ else _).
  destruct (length msgs <? 20); cbv beta iota; [intros _; auto|].
  destruct (llm_complete b provider model _) as [s|]; cbv beta iota; [|intros _; auto].
  rewrite summarize_conversation_spec, Hc.
  destruct (summary_insert_fails b) eqn:Hi; cbn [andb negb]; cbv beta iota;
    (destruct (0 <? length (drop_last_10 msgs)); cbv beta iota;
     [rewrite delete_up_to_spec; destruct (delete_fails b) eqn:Hd; cbv beta iota;
      cbn [fst snd memory_vectors summaries]; intros H; try discriminate H
     |cbn [fst snd]; intros H; discriminate H]).
  - auto.
  - split; [reflexivity|]. right. split; [reflexivity|]. split; [reflexivity|].
    eexists; eexists; reflexivity.
Qed.

(** X15: take a conversation of at least 20 records in strictly increasing
    [created_at] order, with every collaborator answering.  Let [k] be
    [min(n, 100) - 10].  [summarize_and_prune] returns [True], appends one
    summary with [messages_count = k] and deletes the first [k] records.  So
    it keeps the 10 newest records when [n <= 100], but [n - 90] when
    [n > 100].  Other conversations are untouched. *)
Theorem summarize_and_prune_success (b : backend) (u c provider model : string) (d : db)
    (Hcfg : configured b = true) (Hsel : select_fails b = false)
    (Hins : summary_insert_fails b = false) (Hdel : delete_fails b = false)
    (Hllm : forall prompt, llm_complete b provider model prompt <> None)
    (Hinc : strictly_increasing (map rec_created_at (conv_records u c d)) = true)
    (H20 : 20 <= length (conv_records u c d)) :
  let k := Nat.min 100 (length (conv_records u c d)) - 10 in
  let res := summarize_and_prune b u c provider model d in
  fst res = inr true /\
  (exists s, summaries (snd res) = app (summaries d) [summary_of u c s k]) /\
  conv_records u c (snd res) = skipn k (conv_records u c d) /\
  filter (fun r => negb (is_conv u c r)) (memory_vectors (snd res)) =
    filter (fun r => negb (is_conv u c r)) (memory_vectors d).
Proof.
  apply strictly_increasing_sorted in Hinc.
  set (conv := conv_records u c d) in *.
  set (k := Nat.min 100 (length conv) - 10).
  cbv zeta.
  unfold summarize_and_prune, try_except, bind, get_supabase_client, ret, raise.
  rewrite Hcfg. cbv beta iota.
  rewrite get_conversation_messages_spec, Hcfg, Hsel. cbn [andb negb].
  cbv beta iota. fold conv.
  rewrite order_by_created_at_sorted by exact Hinc.
  replace (length (firstn 100 conv) <? 20) with false
    by (symmetry; apply Nat.ltb_ge; rewrite length_firstn; lia).
  cbv beta iota.
  destruct (llm_complete b provider model _) as [s|] eqn:Hl;
    [|exfalso; eapply Hllm; exact Hl].
  cbv beta iota.
  rewrite summarize_conversation_spec, Hcfg, Hins. cbn [andb negb].
  cbv beta iota.
  assert (Hdrop : drop_last_10 (firstn 100 conv) = firstn k conv).
  { unfold drop_last_10. rewrite length_firstn, firstn_firstn.
    f_equal. unfold k. lia. }
  rewrite Hdrop.
  replace (0 <? length (firstn k conv)) with true
    by (symmetry; apply Nat.ltb_lt; rewrite length_firstn; unfold k; lia).
  cbv beta iota.
  rewrite delete_up_to_spec, Hdel. cbv beta iota.
  cbn [fst snd].
  rewrite length_firstn. replace (Nat.min k (length conv)) with k by (unfold k; lia).
  split; [reflexivity|]. split; [exists s; reflexivity|].
  split.
  - unfold conv_records at 1. cbn [memory_vectors].
    rewrite conv_records_after_delete. fold conv.
    apply delete_up_to_kth; [exact Hinc|unfold k; lia|unfold k; lia].
  - cbn [memory_vectors]. apply others_after_delete.
Qed.

Lemma chat_role_not_system (e : history_entry) :
  (String.eqb (h_role e) "user" || String.eqb (h_role e) "assistant") = true ->
  String.eqb (h_role e) "system" = false.
Proof.
  intros H. apply orb_true_iff in H as [H|H]; apply String.eqb_eq in H; rewrite H;
    reflexivity.
Qed.

Lemma anthropic_convert_history (sys : string) (acc : list message)
    (l : list history_entry) :
  (forall e, In e l ->
     (String.eqb (h_role e) "user" || String.eqb (h_role e) "assistant") = true) ->
  anthropic_convert sys acc
    (map (fun msg => [("role", h_role msg); ("content", h_content msg)]) l) =
  Some (sys, app acc (map (fun msg => [("role", h_role msg); ("content", h_content msg)]) l)).
Proof.
  revert acc; induction l as [|e l IH]; intros acc H; simpl.
  - rewrite app_nil_r. reflexivity.
  - rewrite (chat_role_not_system e (H e (or_introl eq_refl))).
    rewrite IH by (intros e' He'; apply H; right; exact He').
    rewrite <- app_assoc. reflexivity.
Qed.

Lemma build_messages_filtered (use_memory : bool) (mems : list mem_record)
    (history : list history_entry) :
  forall e, In e (filter (fun msg => String.eqb (h_role msg) "user" ||
                                     String.eqb (h_role msg) "assistant")
                   (skipn (length history - 10) history)) ->
  (String.eqb (h_role e) "user" || String.eqb (h_role e) "assistant") = true.
Proof. intros e He. apply filter_In in He. apply He. Qed.

(** X16: for the messages of a chat turn, [_chat_anthropic] sends the chat's
    system text (with any recalled memories) as [system].  The message list
    it sends is every other message, in order. *)
Theorem anthropic_request_build_messages (use_memory : bool) (mems : list mem_record)
    (history : list history_entry) :
  anthropic_request (build_messages use_memory mems history) =
  Some (chat_system_msg use_memory mems, tl (build_messages use_memory mems history)).
Proof.
  unfold anthropic_request, build_messages. simpl.
  apply anthropic_convert_history. apply build_messages_filtered; assumption.
Qed.

Lemma gemini_conversation_history (l : list history_entry) :
  (forall e, In e l ->
     (String.eqb (h_role e) "user" || String.eqb (h_role e) "assistant") = true) ->
  gemini_conversation
    (map (fun msg => [("role", h_role msg); ("content", h_content msg)]) l) =
  Some (map h_content l).
Proof.
  induction l as [|e l IH]; intros H; simpl; [reflexivity|].
  rewrite (H e (or_introl eq_refl)).
  rewrite IH by (intros e' He'; apply H; right; exact He'). reflexivity.
Qed.

Lemma skipn_last_10_app (history : list history_entry) (e : history_entry) :
  skipn (length (app history [e]) - 10) (app history [e]) =
  app (skipn (length history + 1 - 10) history) [e].
Proof.
  rewrite length_app, skipn_app. simpl length.
  replace (length history + 1 - 10 - length history) with 0 by lia.
  reflexivity.
Qed.

(** X17: in a chat turn, [_chat_gemini] sends only the new user input.  The
    system text, the recalled memories and the earlier turns are all
    dropped. *)
Theorem gemini_prompt_chat_turn (use_memory : bool) (mems : list mem_record)
    (history : list history_entry) (user_input timestamp : string) :
  gemini_prompt (build_messages use_memory mems
                   (app history [user_entry user_input timestamp])) =
  Some user_input.
Proof.
  unfold gemini_prompt, build_messages. simpl gemini_conversation.
  rewrite gemini_conversation_history
    by (apply build_messages_filtered; assumption).
  simpl option_map. f_equal.
  rewrite skipn_last_10_app, filter_app. simpl filter at 2.
  rewrite map_app. apply last_last.
Qed.

Lemma length_filter_le {A} (f : A -> bool) (l : list A) :
  length (filter f l) <= length l.
Proof.
  induction l as [|x l IH]; simpl; [lia|]. destruct (f x); simpl; lia.
Qed.

(** X18: the outgoing messages of a chat turn begin with the system message
    and number at most 11.  Every later message is a user or assistant entry
    of the history, copied with its role and content. *)
Theorem build_messages_shape (use_memory : bool) (mems : list mem_record)
    (history : list history_entry) :
  let ms := build_messages use_memory mems history in
  hd [] ms = [("role", "system"); ("content", chat_system_msg use_memory mems)] /\
  length ms <= 11 /\
  (forall m, In m (tl ms) ->
     exists e, In e history /\ (h_role e = "user" \/ h_role e = "assistant") /\
       m = [("role", h_role e); ("content", h_content e)]).
Proof.
  cbv zeta. unfold build_messages. cbn [hd tl length].
  split; [reflexivity|]. split.
  - rewrite length_map. pose proof (length_filter_le
      (fun msg => String.eqb (h_role msg) "user" || String.eqb (h_role msg) "assistant")
      (skipn (length history - 10) history)).
    rewrite length_skipn in H. lia.
  - intros m Hm. apply in_map_iff in Hm as [e [<- He]].
    apply filter_In in He as [He Hr]. exists e. split; [exact (in_skipn _ _ _ He)|].
    split; [|reflexivity].
    apply orb_true_iff in Hr as [Hr|Hr]; apply String.eqb_eq in Hr; auto.
Qed.

(** X19: the last outgoing message of a chat turn is the new user input. *)
Theorem build_messages_chat_turn_last (use_memory : bool) (mems : list mem_record)
    (history : list history_entry) (user_input timestamp : string) :
  last (build_messages use_memory mems (app history [user_entry user_input timestamp])) [] =
  [("role", "user"); ("content", user_input)].
Proof.
  unfold build_messages. rewrite skipn_last_10_app, filter_app. simpl filter at 2.
  rewrite map_app. cbn [map].
  rewrite app_comm_cons. apply last_last.
Qed.

Lemma getitem_in {V} (d : list (string * V)) (k : string) (v : V) :
  getitem d k = Some v -> In (k, v) d.
Proof.
  unfold getitem. induction d as [|[k' v'] d IH]; simpl; [discriminate|].
  destruct (String.eqb k k') eqn:E.
  - intros H. injection H as <-. apply String.eqb_eq in E. subst. left. reflexivity.
  - intros H. right. exact (IH H).
Qed.

(** X20: every model [get_available_models] offers has an exact pricing
    entry.  So [get_token_info] reports its cost as ["accurate"]. *)
Theorem available_models_priced (rnd : Q -> Q)
    (encode : string -> string -> option (list nat)) (provider model : string)
    (messages : list message) (response_text : string) :
  In model (get_available_models provider) ->
  is_model_supported provider model = true /\
  ti_cost_accuracy (get_token_info rnd encode provider model messages response_text)
    = "accurate".
Proof.
  intros Hm.
  assert (Hs : is_model_supported provider model = true).
  { unfold get_available_models in Hm.
    destruct (getitem providers provider) as [e|] eqn:E; [|destruct Hm].
    apply getitem_in in E.
    destruct E as [E|[E|[E|[]]]]; injection E as <- <-; cbn [models] in Hm;
      repeat (destruct Hm as [<-|Hm]; [vm_compute; reflexivity|]); destruct Hm. }
  split; [exact Hs|].
  unfold get_token_info. cbv zeta. cbn [ti_cost_accuracy]. rewrite Hs. reflexivity.
Qed.

Lemma lstrip_length (s : string) : String.length (Py2.lstrip s) <= String.length s.
Proof.
  induction s as [|ch s IH]; simpl; [lia|].
  destruct (Py.is_space ch); simpl; lia.
Qed.

Lemma rstrip_length (s : string) : String.length (Py2.rstrip s) <= String.length s.
Proof.
  induction s as [|ch s IH]; simpl; [lia|].
  destruct (Py.is_space ch && String.eqb (Py2.rstrip s) ""); simpl; lia.
Qed.

Lemma strip_length (s : string) : String.length (Py2.strip s) <= String.length s.
Proof.
  unfold Py2.strip. etransitivity; [apply rstrip_length|apply lstrip_length].
Qed.

(** X21: [validate_api_key] rejects every key shorter than 10 characters,
    for every provider. *)
Theorem validate_api_key_short (provider api_key : string) :
  String.length api_key < 10 -> validate_api_key provider api_key = false.
Proof.
  intros H. unfold validate_api_key.
  pose proof (strip_length api_key).
  replace (String.length (Py2.strip api_key) <? 10) with true
    by (symmetry; apply Nat.ltb_lt; lia).
  rewrite orb_true_r. reflexivity.
Qed.

Lemma starts_with_prefix (p q s : string) :
  Py.starts_with (p ++ q) s = true -> Py.starts_with p s = true.
Proof.
  revert s; induction p as [|a p IH]; intros s H; [reflexivity|].
  destruct s as [|b s]; simpl in H |- *; [discriminate|].
  apply andb_true_iff in H as [Hab H]. rewrite Hab. exact (IH s H).
Qed.

(** X22: every key [validate_api_key] accepts for Anthropic is also
    accepted for OpenAI. *)
Theorem validate_api_key_anthropic_openai (api_key : string) :
  validate_api_key "Anthropic" api_key = true -> validate_api_key "OpenAI" api_key = true.
Proof.
  unfold validate_api_key.
  destruct (String.eqb api_key "" || (String.length (Py2.strip api_key) <? 10));
    [discriminate|].
  change (String.eqb "Anthropic" "OpenAI") with false.
  change (String.eqb "Anthropic" "Anthropic") with true.
  change (String.eqb "OpenAI" "OpenAI") with true. cbv beta iota.
  change "sk-ant-" with ("sk-" ++ "ant-"). apply starts_with_prefix.
Qed.

Lemma add_message_get_conversation_messages_witness :
  configured backend_ok = true /\ select_fails backend_ok = false /\
  strictly_increasing (map rec_created_at (conv_records "u1" "c1" (sample_db 20))) = true /\
  (forall r, In r (conv_records "u1" "c1" (sample_db 20)) -> rec_created_at r < 100) /\
  length (conv_records "u1" "c1" (sample_db 20)) < 50 /\
  (let d' := snd (add_message backend_ok 500 100 false "u1" "user" "hi" "c1" (sample_db 20)) in
   get_conversation_messages backend_ok "u1" "c1" 50 (sample_db 20) =
     (inr (conv_records "u1" "c1" (sample_db 20)), sample_db 20) /\
   get_conversation_messages backend_ok "u1" "c1" 50 d' =
     (inr (app (conv_records "u1" "c1" (sample_db 20))
               [new_record 500 100 "u1" "user" "hi" "c1"]), d')).
Proof.
  assert (Hinc : strictly_increasing (map rec_created_at (conv_records "u1" "c1" (sample_db 20)))
                 = true) by (vm_compute; reflexivity).
  assert (Hnow : forall r, In r (conv_records "u1" "c1" (sample_db 20)) ->
                   rec_created_at r < 100).
  { intros r Hr. apply Nat.ltb_lt. revert r Hr. apply forallb_forall.
    vm_compute. reflexivity. }
  assert (Hlim : length (conv_records "u1" "c1" (sample_db 20)) < 50)
    by (vm_compute; lia).
  split; [reflexivity|]. split; [reflexivity|]. split; [exact Hinc|].
  split; [exact Hnow|]. split; [exact Hlim|].
  apply add_message_get_conversation_messages;
    [reflexivity|reflexivity|exact Hinc|exact Hnow|exact Hlim].
Defined.

Lemma summarize_and_prune_false_keeps_records_witness :
  let res := summarize_and_prune backend_delete_fails "u1" "c1" "OpenAI" "gpt-4" (sample_db 20) in
  fst res = inr false /\
  memory_vectors (snd res) = memory_vectors (sample_db 20) /\
  (summaries (snd res) = summaries (sample_db 20) \/
   (summary_insert_fails backend_delete_fails = false /\
    delete_fails backend_delete_fails = true /\
    exists s n, summaries (snd res) =
                app (summaries (sample_db 20)) [summary_of "u1" "c1" s n])).
Proof.
  cbv zeta.
  assert (Hf : fst (summarize_and_prune backend_delete_fails "u1" "c1" "OpenAI" "gpt-4"
                      (sample_db 20)) = inr false) by (vm_compute; reflexivity).
  split; [exact Hf|].
  apply summarize_and_prune_false_keeps_records. exact Hf.
Defined.

Lemma summarize_and_prune_success_witness :
  configured backend_ok = true /\ select_fails backend_ok = false /\
  summary_insert_fails backend_ok = false /\ delete_fails backend_ok = false /\
  (forall prompt, llm_complete backend_ok "OpenAI" "gpt-4" prompt <> None) /\
  strictly_increasing (map rec_created_at (conv_records "u1" "c1" (sample_db 120))) = true /\
  20 <= length (conv_records "u1" "c1" (sample_db 120)) /\
  (let k := Nat.min 100 (length (conv_records "u1" "c1" (sample_db 120))) - 10 in
   let res := summarize_and_prune backend_ok "u1" "c1" "OpenAI" "gpt-4" (sample_db 120) in
   fst res = inr true /\
   (exists s, summaries (snd res) = app (summaries (sample_db 120)) [summary_of "u1" "c1" s k]) /\
   conv_records "u1" "c1" (snd res) = skipn k (conv_records "u1" "c1" (sample_db 120)) /\
   filter (fun r => negb (is_conv "u1" "c1" r)) (memory_vectors (snd res)) =
     filter (fun r => negb (is_conv "u1" "c1" r)) (memory_vectors (sample_db 120))).
Proof.
  do 4 (split; [reflexivity|]).
  split; [intros p; discriminate|].
  split; [vm_compute; reflexivity|]. split; [vm_compute; lia|].
  apply summarize_and_prune_success;
    first [reflexivity | intros p; discriminate | vm_compute; reflexivity | vm_compute; lia].
Defined.

Lemma available_models_priced_witness :
  In "o3" (get_available_models "OpenAI") /\
  is_model_supported "OpenAI" "o3" = true /\
  ti_cost_accuracy (get_token_info exact no_tiktoken "OpenAI" "o3" [] "") = "accurate".
Proof.
  assert (H : In "o3" (get_available_models "OpenAI")) by (vm_compute; right; left; reflexivity).
  split; [exact H|]. apply available_models_priced. exact H.
Defined.

Lemma validate_api_key_short_witness :
  String.length "sk-abc" < 10 /\ validate_api_key "OpenAI" "sk-abc" = false.
Proof.
  assert (H : String.length "sk-abc" < 10) by (simpl; lia).
  split; [exact H|]. apply validate_api_key_short. exact H.
Defined.

Lemma validate_api_key_anthropic_openai_witness :
  validate_api_key "Anthropic" "sk-ant-api03-abcdefghij" = true /\
  validate_api_key "OpenAI" "sk-ant-api03-abcdefghij" = true.
Proof.
  assert (H : validate_api_key "Anthropic" "sk-ant-api03-abcdefghij" = true)
    by (vm_compute; reflexivity).
  split; [exact H|]. apply validate_api_key_anthropic_openai. exact H.
Defined.
